(** * github-pr-reviewer: a shallow embedding of the resilient request layer

    The development follows the Python sources:
    - [src/config.py]         ([Config._parse_repository]),
    - [src/github_client.py]  ([GitHubClient]),
    - [src/llm_reviewer.py]   ([LLMReviewer]).

    Conventions of the embedding.
    - A Python [str] is a [string]; its characters are the 8-bit code points
      of [ascii] (code points above 255 are outside the model).
    - A Python [int] is a [Z]; [time.time()] and sleep durations are exact
      rationals [Q].
    - A value returned by [response.json()] is a [pyval].
    - The network, the clock and the random generator are oracles, collected
      in a record and indexed by the number of calls made so far; the calls
      made and the sleeps taken are recorded in a trace.
    - An uncaught Python exception is the [Raise] constructor of [result]. *)

From Stdlib Require Import ZArith QArith Qround Lia List Ascii String DecimalString.
From stdpp Require Import base option gmap strings.
Import ListNotations.

Local Open Scope string_scope.
Local Open Scope Z_scope.

(** ** Python strings *)

Module PyStr.

Definition nl : ascii := "010"%char.

(** [len(s)] *)
Definition len (s : string) : Z := Z.of_nat (String.length s).

(** Truthiness of a [str]: non-empty. *)
Definition truthy (s : string) : bool :=
  match s with EmptyString => false | String _ _ => true end.

(** [s.startswith(p)] *)
Definition startswith (s p : string) : bool := String.prefix p s.

(** The first [n] characters. *)
Fixpoint take (n : nat) (s : string) : string :=
  match n, s with
  | S n', String a s' => String a (take n' s')
  | _, _ => EmptyString
  end.

(** [s[:n]] for an arbitrary integer [n]: a negative bound counts from the
    end of the string. *)
Definition slice_to (s : string) (n : Z) : string :=
  if 0 <=? n then take (Z.to_nat n) s
  else take (Z.to_nat (len s + n)) s.

(** [s[i]] for [0 <= i], as an option. *)
Definition at_index (s : string) (i : Z) : option ascii :=
  if i <? 0 then None else String.get (Z.to_nat i) s.

(** [s.rfind(c)] for a one-character needle: the highest index holding
    [c], or [-1]. The scan runs left to right and remembers the last hit. *)
Fixpoint rfind_from (c : ascii) (s : string) (i last : Z) : Z :=
  match s with
  | EmptyString => last
  | String a s' => rfind_from c s' (i + 1) (if Ascii.eqb a c then i else last)
  end.

Definition rfind (s : string) (c : ascii) : Z := rfind_from c s 0 (-1).

(** [s.split(sep)] for a one-character separator: never an empty list. *)
Fixpoint split_on (sep : ascii) (s : string) (cur : string) : list string :=
  match s with
  | EmptyString => [cur]
  | String a s' =>
      if Ascii.eqb a sep then cur :: split_on sep s' EmptyString
      else split_on sep s' (cur +:+ String a EmptyString)
  end.

Definition split (s : string) (sep : ascii) : list string :=
  split_on sep s EmptyString.

(** Python's [str.isspace] on the code points below 256. *)
Definition is_space (a : ascii) : bool :=
  let n := Z.of_nat (nat_of_ascii a) in
  ((9 <=? n) && (n <=? 13)) || ((28 <=? n) && (n <=? 32))
  || (n =? 133) || (n =? 160).

(** [s.lstrip(...)], [s.rstrip(...)] and [s.strip()] over a predicate on
    characters. *)
Fixpoint lstrip_by (p : ascii -> bool) (s : string) : string :=
  match s with
  | EmptyString => EmptyString
  | String a s' => if p a then lstrip_by p s' else s
  end.

Fixpoint rstrip_by (p : ascii -> bool) (s : string) : string :=
  match s with
  | EmptyString => EmptyString
  | String a s' =>
      match rstrip_by p s' with
      | EmptyString => if p a then EmptyString else String a EmptyString
      | r => String a r
      end
  end.

Definition strip (s : string) : string :=
  rstrip_by is_space (lstrip_by is_space s).

(** Membership of a character in a string, as in [c in chars]. *)
Fixpoint mem (a : ascii) (chars : string) : bool :=
  match chars with
  | EmptyString => false
  | String b r => Ascii.eqb a b || mem a r
  end.

(** [s.rstrip(chars)]: removes every trailing character that occurs in
    [chars]. *)
Definition rstrip (s chars : string) : string :=
  rstrip_by (fun a => mem a chars) s.

(** [str(n)] for an integer, as an f-string prints it. *)
Definition of_Z (n : Z) : string := NilZero.string_of_int (Z.to_int n).

(** [int(s)] on a string: surrounding whitespace is ignored, one sign is
    allowed, then decimal digits, single underscores allowed between
    digits. [None] stands for [ValueError]. *)
Definition digit_val (a : ascii) : option Z :=
  let n := Z.of_nat (nat_of_ascii a) in
  if (48 <=? n) && (n <=? 57) then Some (n - 48) else None.

Fixpoint digits_from (s : string) (acc : Z) (after_digit : bool) : option Z :=
  match s with
  | EmptyString => if after_digit then Some acc else None
  | String a s' =>
      match digit_val a with
      | Some d => digits_from s' (10 * acc + d) true
      | None =>
          if Ascii.eqb a "_"%char && after_digit then
            match s' with
            | EmptyString => None
            | String b _ =>
                match digit_val b with
                | Some _ => digits_from s' acc false
                | None => None
                end
            end
          else None
      end
  end.

Definition to_int (s : string) : option Z :=
  match strip s with
  | String "-"%char r => option_map Z.opp (digits_from r 0 false)
  | String "+"%char r => digits_from r 0 false
  | r => digits_from r 0 false
  end.

End PyStr.

(** ** Python values, exceptions and results *)

Set Warnings "-register-all".

(** The values [response.json()] can return. A JSON object becomes a [dict],
    kept here as an association list in insertion order with unique keys. *)
Inductive pyval : Type :=
| PyNone
| PyBool (b : bool)
| PyInt (z : Z)
| PyFloat (q : Q)
| PyStr (s : string)
| PyList (l : list pyval)
| PyDict (d : list (string * pyval)).

Inductive exn : Type :=
| ValueError
| AttributeError.

(** The outcome of a Python call: a returned value or an uncaught
    exception. *)
Inductive result (A : Type) : Type :=
| Ok (a : A)
| Raise (e : exn).

Arguments Ok {A} a.
Arguments Raise {A} e.

Module Py.

(** [bool(v)] *)
Definition truthy (v : pyval) : bool :=
  match v with
  | PyNone => false
  | PyBool b => b
  | PyInt z => negb (z =? 0)
  | PyFloat q => negb (Qeq_bool q 0)
  | PyStr s => PyStr.truthy s
  | PyList l => match l with [] => false | _ :: _ => true end
  | PyDict d => match d with [] => false | _ :: _ => true end
  end.

(** [d.get(k)] on a [dict]: [None] when the key is missing. *)
Fixpoint dict_lookup (d : list (string * pyval)) (k : string) : option pyval :=
  match d with
  | [] => None
  | (k', v) :: d' => if String.eqb k' k then Some v else dict_lookup d' k
  end.

Definition dict_get (d : list (string * pyval)) (k : string) : pyval :=
  match dict_lookup d k with Some v => v | None => PyNone end.

(** [d.get(k, default)] *)
Definition dict_get_default (d : list (string * pyval)) (k : string)
    (default : pyval) : pyval :=
  match dict_lookup d k with Some v => v | None => default end.

(** [a or b] *)
Definition or_else (a b : pyval) : pyval := if truthy a then a else b.

(** [isinstance(v, int)]: in Python a [bool] is an [int]. *)
Definition is_int (v : pyval) : bool :=
  match v with PyInt _ | PyBool _ => true | _ => false end.

(** The integer an [int] (or [bool]) stands for in a comparison. *)
Definition int_value (v : pyval) : option Z :=
  match v with
  | PyInt z => Some z
  | PyBool b => Some (if b then 1 else 0)
  | _ => None
  end.

End Py.

(** ** A matcher for the regular expressions the program uses *)

Module Re.

(** The pieces the program's patterns are built from. *)
Inductive atom : Type :=
| Lit (s : string)              (* literal text *)
| OneOf (chars : string)        (* [chars] *)
| GroupNoneOfPlus (chars : string)  (* ([^chars]+), capturing and greedy *)
| NoneOfPlus (chars : string)   (* [^chars]+, greedy *)
| Opt (c : ascii)               (* c? , greedy *)
| EndAnchor.                    (* $ *)

(** Removes a literal prefix. *)
Fixpoint eat (p s : string) : option string :=
  match p, s with
  | EmptyString, _ => Some s
  | String a p', String b s' => if Ascii.eqb a b then eat p' s' else None
  | String _ _, EmptyString => None
  end.

(** [$] without MULTILINE: the end of the string, or just before a newline
    that is its last character. *)
Definition at_end (s : string) : bool :=
  match s with
  | EmptyString => true
  | String a EmptyString => Ascii.eqb a PyStr.nl
  | _ => false
  end.

(** Backtracking match of a pattern at the head of [s]. The result is the
    list of captured groups, in order, and the number of characters the
    match consumed. A greedy repetition first tries to take one more
    character and gives characters back only when the rest fails. *)
Fixpoint match_here (pat : list atom) (s : string) (caps : list string)
    (used : nat) : option (list string * nat) :=
  match pat with
  | [] => Some (caps, used)
  | Lit p :: rest =>
      match eat p s with
      | Some s' => match_here rest s' caps (used + String.length p)
      | None => None
      end
  | OneOf chars :: rest =>
      match s with
      | String a s' =>
          if PyStr.mem a chars then match_here rest s' caps (S used) else None
      | EmptyString => None
      end
  | GroupNoneOfPlus chars :: rest =>
      (fix loop (s : string) (taken : string) (used : nat) :=
         match s with
         | String a s' =>
             if PyStr.mem a chars then None
             else
               let taken' := taken +:+ String a EmptyString in
               match loop s' taken' (S used) with
               | Some r => Some r
               | None => match_here rest s' (caps ++ [taken']) (S used)
               end
         | EmptyString => None
         end) s EmptyString used
  | NoneOfPlus chars :: rest =>
      (fix loop (s : string) (used : nat) :=
         match s with
         | String a s' =>
             if PyStr.mem a chars then None
             else
               match loop s' (S used) with
               | Some r => Some r
               | None => match_here rest s' caps (S used)
               end
         | EmptyString => None
         end) s used
  | Opt c :: rest =>
      match s with
      | String a s' =>
          if Ascii.eqb a c then
            match match_here rest s' caps (S used) with
            | Some r => Some r
            | None => match_here rest s caps used
            end
          else match_here rest s caps used
      | EmptyString => match_here rest s caps used
      end
  | EndAnchor :: rest =>
      if at_end s then match_here rest s caps used else None
  end.

(** [re.search(pat, s)]: the leftmost position where the pattern matches;
    the result gives the start of the match, its length and its groups. *)
Fixpoint search_from (pat : list atom) (s : string) (start : nat)
    : option (nat * nat * list string) :=
  match match_here pat s [] 0 with
  | Some (caps, used) => Some (start, used, caps)
  | None =>
      match s with
      | EmptyString => None
      | String _ s' => search_from pat s' (S start)
      end
  end.

Definition search (pat : list atom) (s : string) : option (list string) :=
  match search_from pat s 0 with
  | Some (_, _, caps) => Some caps
  | None => None
  end.

(** The characters of [s] from position [n] on. *)
Fixpoint drop (n : nat) (s : string) : string :=
  match n, s with
  | S n', String _ s' => drop n' s'
  | _, _ => s
  end.

(** [re.sub(pat, '', s)]: every match, found left to right, is removed.
    Each turn consumes at least one character of [s], so the length of [s]
    bounds the number of turns. *)
Fixpoint sub_turns (turns : nat) (pat : list atom) (s : string) : string :=
  match turns with
  | O => s
  | S turns' =>
      match search_from pat s 0 with
      | None => s
      | Some (start, O, _) =>
          PyStr.take (S start) s +:+ sub_turns turns' pat (drop (S start) s)
      | Some (start, used, _) =>
          PyStr.take start s +:+ sub_turns turns' pat (drop (start + used) s)
      end
  end.

Definition sub (pat : list atom) (s : string) : string :=
  sub_turns (S (String.length s)) pat s.

End Re.

(** ** Regular expressions matched for a yes or no answer *)

Module Regex.

(** The constructs of the patterns that are only tested, not searched for
    groups. *)
Inductive t : Type :=
| Chr (p : ascii -> bool)       (* one character of a class *)
| PlusChr (p : ascii -> bool)   (* [class]+ , greedy *)
| Cat (r1 r2 : t)               (* r1 r2 *)
| Opt (r : t)                   (* (?:r)? , greedy *)
| End.                          (* $ *)

(** [[class]+] followed by [k]: after each character of the class, one more
    is tried before [k] is given what is left. *)
Fixpoint plus_chars (p : ascii -> bool) (k : string -> bool) (s : string) : bool :=
  match s with
  | String a s' => p a && (plus_chars p k s' || k s')
  | EmptyString => false
  end.

(** Backtracking match of [r] at the head of [s], continued by [k] on what
    is left. *)
Fixpoint matches (r : t) (s : string) (k : string -> bool) : bool :=
  match r with
  | Chr p =>
      match s with
      | String a s' => if p a then k s' else false
      | EmptyString => false
      end
  | PlusChr p => plus_chars p k s
  | Cat r1 r2 => matches r1 s (fun s' => matches r2 s' k)
  | Opt r1 => matches r1 s k || k s
  | End => if Re.at_end s then k s else false
  end.

(** [re.match(r, s)] as a truth value: the pattern matches at the start of
    [s]; what follows the match does not matter. *)
Definition py_match (r : t) (s : string) : bool := matches r s (fun _ => true).

End Regex.

(** ** src/config.py *)

Module Config.

(** The settings the modelled code reads from the global [config]. *)
Record t : Type := {
  github_repository : string;
  max_diff_length : Z;
  request_timeout : Z;
  max_retries : Z
}.

(** The pattern [github\.com[/:]([^/]+)/([^/]+)/?$]. *)
Definition github_url_re : list Re.atom :=
  [Re.Lit "github.com"; Re.OneOf "/:"; Re.GroupNoneOfPlus "/"; Re.Lit "/";
   Re.GroupNoneOfPlus "/"; Re.Opt "/"; Re.EndAnchor].

Definition _parse_repository (repo_input : string) : result string :=
  if negb (PyStr.truthy repo_input) || negb (PyStr.truthy (PyStr.strip repo_input))
  then Raise ValueError
  else
    let repo_input := PyStr.strip repo_input in
    if PyStr.mem "/" repo_input && negb (PyStr.startswith repo_input "http")
    then Ok repo_input
    else
      if PyStr.startswith repo_input "http" then
        let repo_input := PyStr.rstrip repo_input ".git" in
        match Re.search github_url_re repo_input with
        | Some [g1; g2] => Ok (g1 +:+ "/" +:+ g2)
        | _ => Raise ValueError
        end
      else Raise ValueError.

(** The environment, after [load_dotenv()]: [os.getenv] is a lookup. *)
Definition getenv (env : gmap string string) (key : string) : option string :=
  env !! key.

(** [os.getenv(key, default)] *)
Definition getenv_or (env : gmap string string) (key default : string) : string :=
  match env !! key with Some v => v | None => default end.

Definition _get_required (env : gmap string string) (key : string)
    : result string :=
  match getenv env key with
  | Some value =>
      if negb (PyStr.truthy value) || negb (PyStr.truthy (PyStr.strip value))
      then Raise ValueError
      else Ok (PyStr.strip value)
  | None => Raise ValueError
  end.

(** All the fields of a [Config] object; [core] holds the ones the request
    layer reads. *)
Record settings : Type := {
  huggingface_api_key : string;
  github_token : string;
  huggingface_model : string;
  core : t
}.

(** The class [[A-Za-z0-9_.-]]. *)
Definition model_name_char (a : ascii) : bool :=
  let n := Z.of_nat (nat_of_ascii a) in
  ((65 <=? n) && (n <=? 90)) || ((97 <=? n) && (n <=? 122))
  || ((48 <=? n) && (n <=? 57)) || PyStr.mem a "_.-".

(** [MODEL_NAME_REGEX], the pattern [^[A-Za-z0-9_.-]+(?:/[A-Za-z0-9_.-]+)?$];
    it is used with [re.match], which anchors it at the start. *)
Definition MODEL_NAME_REGEX : Regex.t :=
  Regex.Cat (Regex.PlusChr model_name_char)
    (Regex.Cat
       (Regex.Opt (Regex.Cat (Regex.Chr (Ascii.eqb "/"))
                     (Regex.PlusChr model_name_char)))
       Regex.End).

(** [_validate_config]; the two warnings it may log change nothing. *)
Definition _validate_config (self : settings) : result unit :=
  if negb (Regex.py_match MODEL_NAME_REGEX (huggingface_model self))
  then Raise ValueError
  else if max_diff_length (core self) <=? 0 then Raise ValueError
  else if request_timeout (core self) <=? 0 then Raise ValueError
  else if max_retries (core self) <? 0 then Raise ValueError
  else Ok tt.

(** [int(os.getenv(key, default))] *)
Definition getenv_int (env : gmap string string) (key default : string)
    : result Z :=
  match PyStr.to_int (getenv_or env key default) with
  | Some n => Ok n
  | None => Raise ValueError
  end.

(** [Config.__init__], on a given environment. *)
Definition __init__ (env : gmap string string) : result settings :=
  match _get_required env "HF_API_KEY" with
  | Raise e => Raise e
  | Ok huggingface_api_key =>
  match _get_required env "GITHUB_TOKEN" with
  | Raise e => Raise e
  | Ok github_token =>
  match _get_required env "GITHUB_REPOSITORY" with
  | Raise e => Raise e
  | Ok repository_input =>
  match _parse_repository repository_input with
  | Raise e => Raise e
  | Ok github_repository =>
  let huggingface_model :=
    getenv_or env "HUGGINGFACE_MODEL" "mistralai/Mistral-7B-Instruct-v0.2" in
  match getenv_int env "MAX_DIFF_LENGTH" "4000" with
  | Raise e => Raise e
  | Ok max_diff_length =>
  match getenv_int env "REQUEST_TIMEOUT" "30" with
  | Raise e => Raise e
  | Ok request_timeout =>
  match getenv_int env "MAX_RETRIES" "5" with
  | Raise e => Raise e
  | Ok max_retries =>
  let self :=
    {| huggingface_api_key := huggingface_api_key;
       github_token := github_token;
       huggingface_model := huggingface_model;
       core := {| github_repository := github_repository;
                  max_diff_length := max_diff_length;
                  request_timeout := request_timeout;
                  max_retries := max_retries |} |} in
  match _validate_config self with
  | Raise e => Raise e
  | Ok _ => Ok self
  end end end end end end end end.

End Config.

(** ** The outside world: network, clock, random generator *)

Module World.

(** An HTTP response, as far as the program looks at it. [json] is the
    value of [response.json()], [None] when the body is not JSON. *)
Record response : Type := {
  status_code : Z;
  headers : gmap string string;
  json : option pyval;
  text : string
}.

(** What a call of [session.get] or [requests.post] can do. The three
    exceptions are the classes the program catches; [RequestException]
    stands for one that is neither a timeout nor a connection error. *)
Inductive outcome : Type :=
| Returned (r : response)
| Timeout
| ConnectionError
| RequestException.

(** The oracles: the outcome of the k-th HTTP call, the k-th reading of
    [time.time()], the k-th draw of [random.uniform(0, 1)]. *)
Record oracle : Type := {
  net : nat -> outcome;
  clock : nat -> Q;
  jitter : nat -> Q
}.

Inductive event : Type :=
| Get (url : string) (is_diff : bool)
| Post (prompt : string)
| Sleep (seconds : Q).

(** How many oracle answers were consumed, and what happened, oldest
    event first. *)
Record t : Type := {
  calls : nat;
  ticks : nat;
  draws : nat;
  trace : list event
}.

Definition initial : t := {| calls := 0; ticks := 0; draws := 0; trace := [] |}.

(** One HTTP call: the event is recorded and the oracle answers. *)
Definition http (o : oracle) (e : event) (w : t) : outcome * t :=
  (net o (calls w),
   {| calls := S (calls w); ticks := ticks w; draws := draws w;
      trace := trace w ++ [e] |}).

(** [time.time()] *)
Definition time (o : oracle) (w : t) : Q * t :=
  (clock o (ticks w),
   {| calls := calls w; ticks := S (ticks w); draws := draws w;
      trace := trace w |}).

(** [random.uniform(0, 1)] *)
Definition uniform (o : oracle) (w : t) : Q * t :=
  (jitter o (draws w),
   {| calls := calls w; ticks := ticks w; draws := S (draws w);
      trace := trace w |}).

(** [time.sleep(seconds)] *)
Definition sleep (seconds : Q) (w : t) : t :=
  {| calls := calls w; ticks := ticks w; draws := draws w;
     trace := trace w ++ [Sleep seconds] |}.

Definition is_request (e : event) : bool :=
  match e with Get _ _ | Post _ => true | Sleep _ => false end.

(** The number of HTTP calls in a trace. *)
Definition requests (tr : list event) : nat :=
  List.length (List.filter is_request tr).

Definition is_sleep (e : event) : bool :=
  match e with Sleep _ => true | _ => false end.

(** The number of [time.sleep] calls in a trace. *)
Definition sleeps (tr : list event) : nat :=
  List.length (List.filter is_sleep tr).

(** [response.ok], which is also the truth value of a response. *)
Definition ok (r : response) : bool :=
  negb ((400 <=? status_code r) && (status_code r <? 600)).

End World.

(** Python's [max(a, b)] and [min(a, b)] on rationals, and [int(q)]. *)
Definition Qltb (x y : Q) : bool := negb (Qle_bool y x).
Definition py_max (a b : Q) : Q := if Qltb a b then b else a.
Definition py_min (a b : Q) : Q := if Qltb b a then b else a.
Definition py_int_of_Q (q : Q) : Z := if Qltb q 0 then Qceiling q else Qfloor q.

(** ** src/github_client.py *)

Module GitHubClient.
Import World.

(** The mutable fields of a client: the Rate-Limit State. *)
Record t : Type := {
  rate_limit_remaining : Z;
  last_request_time : Q
}.

(** [__init__] *)
Definition init : t := {| rate_limit_remaining := 10; last_request_time := 0 |}.

Definition base_url : string := "https://api.github.com".

(** [response.headers.get(key, default)] *)
Definition header_or (r : response) (key default : string) : string :=
  match headers r !! key with Some v => v | None => default end.

Definition _handle_rate_limit (o : oracle) (response : response) (w : World.t)
    : result (option Z) * World.t :=
  if negb ((status_code response =? 403) || (status_code response =? 429))
  then (Ok None, w)
  else
    match PyStr.to_int (header_or response "X-RateLimit-Remaining" "0") with
    | None => (Raise ValueError, w)
    | Some rate_limit_remaining =>
        if (rate_limit_remaining >? 0) && negb (status_code response =? 429)
        then (Ok None, w)
        else
          match headers response !! "X-RateLimit-Reset" with
          | Some reset_time_str =>
              if PyStr.truthy reset_time_str then
                match PyStr.to_int reset_time_str with
                | Some reset_time =>
                    let (current_time, w) := time o w in
                    let sleep_time :=
                      py_max (inject_Z reset_time - current_time) 0 in
                    if Qltb sleep_time 1 then (Ok None, w)
                    else (Ok (Some (py_int_of_Q sleep_time)), w)
                | None => (Ok None, w)
                end
              else (Ok None, w)
          | None => (Ok None, w)
          end
    end.

(** [min(60, (2 ** attempt) + random.uniform(0, 1))] *)
Definition backoff (attempt : Z) (u : Q) : Q :=
  py_min 60 (inject_Z (2 ^ attempt) + u).

(** What one turn of the [for] loop of [_make_request] does. *)
Inductive turn : Type :=
| Continue (c : t) (w : World.t)
| Return (r : result (option response)) (c : t) (w : World.t).

Definition turn_client (x : turn) : t :=
  match x with Continue c _ => c | Return _ c _ => c end.

Definition turn_world (x : turn) : World.t :=
  match x with Continue _ w => w | Return _ _ w => w end.

(** The exponential-backoff branch shared by the three retry paths. *)
Definition backoff_or_give_up (o : oracle) (attempt max_retries : Z)
    (c : t) (w : World.t) : turn :=
  if attempt <? max_retries then
    let (u, w) := uniform o w in
    Continue c (sleep (backoff attempt u) w)
  else Return (Ok None) c w.

(** The body of the loop, for one value of [attempt]. *)
Definition attempt_body (o : oracle) (url : string) (is_diff : bool)
    (max_retries attempt : Z) (c : t) (w : World.t) : turn :=
  let (out, w) := http o (Get url is_diff) w in
  match out with
  | Returned response =>
      let (now, w) := time o w in
      let c := {| rate_limit_remaining := rate_limit_remaining c;
                  last_request_time := now |} in
      match PyStr.to_int (header_or response "X-RateLimit-Remaining" "10") with
      | None => Return (Raise ValueError) c w
      | Some remaining =>
          let c := {| rate_limit_remaining := remaining;
                      last_request_time := last_request_time c |} in
          if (status_code response =? 403) || (status_code response =? 429)
          then
            match _handle_rate_limit o response w with
            | (Raise e, w) => Return (Raise e) c w
            | (Ok (Some sleep_time), w) =>
                Continue c (sleep (inject_Z sleep_time) w)
            | (Ok None, w) => backoff_or_give_up o attempt max_retries c w
            end
          else if World.ok response then Return (Ok (Some response)) c w
          else Return (Ok None) c w
      end
  | Timeout => backoff_or_give_up o attempt max_retries c w
  | ConnectionError => backoff_or_give_up o attempt max_retries c w
  | RequestException => Return (Ok None) c w
  end.

(** The [for attempt in range(...)] loop over the attempts still to run. *)
Fixpoint attempts (o : oracle) (url : string) (is_diff : bool)
    (max_retries : Z) (todo : list Z) (c : t) (w : World.t)
    : result (option response) * t * World.t :=
  match todo with
  | [] => (Ok None, c, w)
  | attempt :: todo' =>
      match attempt_body o url is_diff max_retries attempt c w with
      | Continue c w => attempts o url is_diff max_retries todo' c w
      | Return r c w => (r, c, w)
      end
  end.

(** [range(n)] *)
Definition range (n : Z) : list Z :=
  List.map Z.of_nat (List.seq 0 (Z.to_nat n)).

Definition _make_request (cfg : Config.t) (o : oracle) (url : string)
    (is_diff : bool) (max_retries : option Z) (c : t) (w : World.t)
    : result (option response) * t * World.t :=
  let max_retries :=
    match max_retries with Some n => n | None => Config.max_retries cfg end in
  let (now, w) := time o w in
  let time_since_last := (now - last_request_time c)%Q in
  let w := if Qltb time_since_last 1 then sleep (1 - time_since_last) w else w in
  attempts o url is_diff max_retries (range (max_retries + 1)) c w.

(** The author of a pull request, from its [user] field. *)
Definition author_of (pr : list (string * pyval)) : pyval :=
  match Py.or_else (Py.dict_get pr "user") (PyDict []) with
  | PyDict user_obj => Py.dict_get user_obj "login"
  | _ => PyStr "unknown"
  end.

(** The loop of [get_open_pull_requests] over the entries of the payload. *)
Fixpoint summaries (prs : list pyval) : list (list (string * pyval)) :=
  match prs with
  | [] => []
  | PyDict pr :: rest =>
      let pr_dict :=
        [("number", Py.dict_get pr "number");
         ("title", Py.or_else (Py.dict_get pr "title") (PyStr "Untitled"));
         ("body", Py.or_else (Py.dict_get pr "body") (PyStr ""));
         ("html_url", Py.or_else (Py.dict_get pr "html_url") (PyStr ""));
         ("user", author_of pr)] in
      match Py.dict_get pr_dict "number" with
      | PyNone => summaries rest
      | _ =>
          if negb (Py.truthy (Py.dict_get pr_dict "html_url"))
          then summaries rest
          else pr_dict :: summaries rest
      end
  | _ :: rest => summaries rest
  end.

Definition get_open_pull_requests (cfg : Config.t) (o : oracle) (c : t)
    (w : World.t) : result (list (list (string * pyval))) * t * World.t :=
  let url := base_url +:+ "/repos/" +:+ Config.github_repository cfg +:+ "/pulls"
             +:+ "?state=open&sort=created&direction=desc" in
  match _make_request cfg o url false None c w with
  | (Raise e, c, w) => (Raise e, c, w)
  | (Ok None, c, w) => (Ok [], c, w)
  | (Ok (Some response), c, w) =>
      if negb (World.ok response) then (Ok [], c, w)
      else
        match json response with
        | None => (Ok [], c, w)
        | Some (PyList prs) => (Ok (summaries prs), c, w)
        | Some _ => (Ok [], c, w)
        end
  end.

Definition get_pull_request_details (cfg : Config.t) (o : oracle)
    (pr_number : Z) (c : t) (w : World.t)
    : result (option (list (string * pyval))) * t * World.t :=
  let url := base_url +:+ "/repos/" +:+ Config.github_repository cfg +:+ "/pulls/"
             +:+ PyStr.of_Z pr_number in
  match _make_request cfg o url false None c w with
  | (Raise e, c, w) => (Raise e, c, w)
  | (Ok None, c, w) => (Ok None, c, w)
  | (Ok (Some response), c, w) =>
      if negb (World.ok response) then (Ok None, c, w)
      else
        match json response with
        | Some (PyDict pr_data) =>
            (Ok (Some
               [("number", Py.dict_get pr_data "number");
                ("title", Py.or_else (Py.dict_get pr_data "title") (PyStr "Untitled"));
                ("body", Py.or_else (Py.dict_get pr_data "body") (PyStr ""));
                ("html_url", Py.or_else (Py.dict_get pr_data "html_url") (PyStr ""));
                ("user", author_of pr_data);
                ("state", Py.dict_get_default pr_data "state" (PyStr "unknown"));
                ("created_at", Py.dict_get_default pr_data "created_at" (PyStr ""));
                ("updated_at", Py.dict_get_default pr_data "updated_at" (PyStr ""))]),
             c, w)
        | _ => (Ok None, c, w)
        end
  end.

(** [line.startswith(('+++', '---', '+', '-', '@@'))] *)
Definition has_diff_marker (line : string) : bool :=
  existsb (PyStr.startswith line) ["+++"; "---"; "+"; "-"; "@@"].

Definition get_pull_request_diff (cfg : Config.t) (o : oracle)
    (pr_number : Z) (c : t) (w : World.t)
    : result (option string) * t * World.t :=
  let url := base_url +:+ "/repos/" +:+ Config.github_repository cfg +:+ "/pulls/"
             +:+ PyStr.of_Z pr_number in
  match _make_request cfg o url true None c w with
  | (Raise e, c, w) => (Raise e, c, w)
  | (Ok None, c, w) => (Ok None, c, w)
  | (Ok (Some response), c, w) =>
      if negb (World.ok response) then (Ok None, c, w)
      else
        let diff_content := text response in
        if negb (PyStr.truthy diff_content)
           || String.eqb (PyStr.strip diff_content) ""
        then (Ok None, c, w)
        else
          let lines := List.firstn 10 (PyStr.split diff_content PyStr.nl) in
          if negb (existsb has_diff_marker lines) then (Ok None, c, w)
          else (Ok (Some diff_content), c, w)
  end.

End GitHubClient.

(** ** src/main.py: the validation the orchestrator applies to a Detail *)

Module PRReviewer.

(** [field in pr_data] for each of the required fields. *)
Definition has_required_fields (pr_data : list (string * pyval)) : bool :=
  forallb (fun field => bool_decide (is_Some (Py.dict_lookup pr_data field)))
    ["number"; "title"; "body"; "html_url"].

Definition validate_pr_data (pr_data : list (string * pyval)) : bool :=
  if negb (has_required_fields pr_data) then false
  else
    let pr_number := Py.dict_get pr_data "number" in
    match Py.int_value pr_number with
    | Some n => if n <=? 0 then false else true
    | None => false
    end.

End PRReviewer.

(** ** src/llm_reviewer.py *)

Module LLMReviewer.
Import World.

(** [re.sub(pattern, '', s)] for the pattern [[^.!?]+$]. *)
Definition trailing_fragment_re : list Re.atom :=
  [Re.NoneOfPlus ".!?"; Re.EndAnchor].

Definition estimate_tokens (text : string) : Z := PyStr.len text / 4.

(** The comparison [last_newline > max_chars * 0.8] is taken over the
    rationals, with [0.8] as the fraction 8/10. *)
Definition truncate_content (cfg : Config.t) (content : string)
    (max_chars : option Z) : string :=
  let max_chars :=
    match max_chars with Some m => m | None => Config.max_diff_length cfg end in
  if PyStr.len content <=? max_chars then content
  else
    let truncated := PyStr.slice_to content max_chars in
    let last_newline := PyStr.rfind truncated PyStr.nl in
    if Qltb (inject_Z max_chars * (8 # 10)) (inject_Z last_newline)
    then PyStr.slice_to truncated last_newline
    else truncated.

(** The text of a result object: [obj.get('generated_text', '')], then
    [.strip()] when it is truthy. Only a [dict] has [get] and only a [str]
    has [strip]. *)
Definition generated_text_of (obj : pyval) : result (option string) :=
  match obj with
  | PyDict d =>
      let generated_text := Py.dict_get_default d "generated_text" (PyStr "") in
      if Py.truthy generated_text then
        match generated_text with
        | PyStr s => Ok (Some (PyStr.strip s))
        | _ => Raise AttributeError
        end
      else Ok None
  | _ => Raise AttributeError
  end.

(** The handling of a 200 response. *)
Definition parse_success (response : response) : result (option string) :=
  match json response with
  | None => Ok None
  | Some (PyList (first :: _)) => generated_text_of first
  | Some (PyDict d) => generated_text_of (PyDict d)
  | Some _ => Ok None
  end.

(** [_call_huggingface_api]: the recursion of the source, which calls
    itself with [retry_count + 1], runs here on a fuel argument; [None]
    means that the fuel ran out. *)
Fixpoint _call_huggingface_api (fuel : nat) (cfg : Config.t) (o : oracle)
    (prompt : string) (retry_count : Z) (w : World.t)
    : option (result (option string) * World.t) :=
  match fuel with
  | O => None
  | S fuel =>
      if retry_count >=? Config.max_retries cfg then Some (Ok None, w)
      else
        let retry_after (seconds : Z) (w : World.t) :=
          _call_huggingface_api fuel cfg o prompt (retry_count + 1)
            (sleep (inject_Z seconds) w) in
        let (out, w) := http o (Post prompt) w in
        match out with
        | Returned response =>
            if status_code response =? 200 then Some (parse_success response, w)
            else if status_code response =? 503 then
              retry_after (10 * (retry_count + 1)) w
            else
              if (500 <=? status_code response) && (status_code response <? 600)
                 && (retry_count <? Config.max_retries cfg)
              then retry_after (5 * (retry_count + 1)) w
              else Some (Ok None, w)
        | Timeout | ConnectionError | RequestException =>
            if retry_count <? Config.max_retries cfg
            then retry_after (5 * (retry_count + 1)) w
            else Some (Ok None, w)
        end
  end.

(** Fuel that is enough for a call starting at [retry_count]. *)
Definition enough_fuel (cfg : Config.t) (retry_count : Z) : nat :=
  S (Z.to_nat (Config.max_retries cfg - retry_count)).

(** [s[-1]] *)
Fixpoint last_char (s : string) : option ascii :=
  match s with
  | EmptyString => None
  | String a EmptyString => Some a
  | String _ s' => last_char s'
  end.

Definition _clean_review_response (review : string) : string :=
  if negb (PyStr.truthy review) then ""
  else
    let review := Re.sub trailing_fragment_re review in
    let review :=
      match last_char review with
      | Some a => if negb (PyStr.mem a ".!?") then review +:+ "." else review
      | None => review
      end in
    PyStr.strip review.

Definition build_prompt (pr_title pr_description truncated_diff : string)
    : string :=
  "<s>[INST] You are an experienced software engineer reviewing a pull request. 
        Provide specific, actionable feedback focused on:

        1. CODE QUALITY: Code structure, naming, simplicity
        2. BUG RISKS: Potential errors, edge cases, null checks
        3. SECURITY: Input validation, authentication, data exposure
        4. PERFORMANCE: Inefficient operations, memory usage
        5. MAINTAINABILITY: Readability, documentation, complexity

        Be concise but thorough. Point to specific lines when possible.

        Pull Request Details:
        Title: "
    +:+ pr_title
    +:+ "
        Description: "
    +:+ pr_description
    +:+ "

        Code Changes:
        ```diff
        "
    +:+ truncated_diff
    +:+ "
        Provide your code review: [/INST]".

Definition generate_review (cfg : Config.t) (o : oracle)
    (pr_title pr_description diff_content : string) (w : World.t)
    : option (result (option string) * World.t) :=
  let pr_description :=
    if negb (PyStr.truthy pr_description)
       || String.eqb (PyStr.strip pr_description) ""
    then "No description provided." else pr_description in
  let truncated_diff := truncate_content cfg diff_content None in
  let prompt := build_prompt pr_title pr_description truncated_diff in
  match _call_huggingface_api (enough_fuel cfg 0) cfg o prompt 0 w with
  | None => None
  | Some (Raise e, w) => Some (Raise e, w)
  | Some (Ok (Some review), w) =>
      if PyStr.truthy review
      then Some (Ok (Some (_clean_review_response review)), w)
      else Some (Ok None, w)
  | Some (Ok None, w) => Some (Ok None, w)
  end.

(** The three counts of the fallback report. *)
Definition count_lines (p : string -> bool) (lines : list string) : Z :=
  Z.of_nat (List.length (List.filter p lines)).

Definition is_added (l : string) : bool :=
  PyStr.startswith l "+" && negb (PyStr.startswith l "+++").
Definition is_removed (l : string) : bool :=
  PyStr.startswith l "-" && negb (PyStr.startswith l "---").
Definition is_file_marker (l : string) : bool := PyStr.startswith l "+++".

(** The f-string the fallback returns. *)
Definition fallback_report (file_changes added_lines removed_lines : Z)
    (complexity : string) : string :=
  "## Automated Code Review (Fallback Mode)

**Note:** AI review service is temporarily unavailable. Basic analysis provided.

### Change Summary
- **Files Modified:** "
    +:+ PyStr.of_Z file_changes
    +:+ "
- **Lines Added:** "
    +:+ PyStr.of_Z added_lines
    +:+ "
- **Lines Removed:** "
    +:+ PyStr.of_Z removed_lines
    +:+ "
- **Change Complexity:** "
    +:+ complexity
    +:+ "

### Recommended Manual Checks
1. **Code Review:** Carefully examine all added code for logic errors
2. **Testing:** Verify adequate test coverage for new functionality
3. **Security:** Check for potential security issues in new code
4. **Documentation:** Ensure comments and docs are updated
5. **Integration:** Test integration with existing systems

Please perform a thorough manual code review of these changes.".

Definition _generate_fallback_review (diff_content : string) : string :=
  if negb (PyStr.truthy diff_content) then
    "## Automated Code Review (Fallback Mode)" +:+ String PyStr.nl (String PyStr.nl "")
    +:+ "No diff content available for analysis."
  else
    let lines := PyStr.split diff_content PyStr.nl in
    let added_lines := count_lines is_added lines in
    let removed_lines := count_lines is_removed lines in
    let file_changes := count_lines is_file_marker lines in
    let complexity :=
      if added_lines >? 100 then "HIGH"
      else if added_lines >? 50 then "MEDIUM"
      else "LOW" in
    fallback_report file_changes added_lines removed_lines complexity.

Definition generate_review_with_fallback (cfg : Config.t) (o : oracle)
    (pr_title pr_description diff_content : string) (w : World.t)
    : option (result string * World.t) :=
  match generate_review cfg o pr_title pr_description diff_content w with
  | None => None
  | Some (Raise e, w) => Some (Raise e, w)
  | Some (Ok (Some review), w) =>
      if PyStr.truthy review then Some (Ok review, w)
      else Some (Ok (_generate_fallback_review diff_content), w)
  | Some (Ok None, w) => Some (Ok (_generate_fallback_review diff_content), w)
  end.

End LLMReviewer.

(** ** src/main.py: the command line *)

Module Main.

(** What [main] does after it has read the command line. *)
Inductive action : Type :=
| Exit (code : Z)                 (* sys.exit(code) before any review *)
| ReviewSingle (pr_number : Z)    (* reviewer.review_single_pr(pr_number) *)
| ReviewAll.                      (* reviewer.review_all_open_prs() *)

(** The characters [c] below 256 with [c.isdigit()]: the ten digits and the
    superscripts one, two and three. *)
Definition is_digit_char (a : ascii) : bool :=
  let n := Z.of_nat (nat_of_ascii a) in
  ((48 <=? n) && (n <=? 57)) || (n =? 178) || (n =? 179) || (n =? 185).

Fixpoint all_chars (p : ascii -> bool) (s : string) : bool :=
  match s with
  | EmptyString => true
  | String a s' => p a && all_chars p s'
  end.

(** [s.isdigit()] *)
Definition isdigit (s : string) : bool :=
  PyStr.truthy s && all_chars is_digit_char s.

(** [s[1:]] *)
Definition tail (s : string) : string :=
  match s with EmptyString => EmptyString | String _ s' => s' end.

(** [int(text)] under [try ... except ValueError: sys.exit(1)]. *)
Definition int_or_exit (text : string) : option Z + Z :=
  match PyStr.to_int text with
  | Some n => inl (Some n)
  | None => inr 1
  end.

(** The reading of [sys.argv]: the value of [pr_number], or the code of the
    [sys.exit] that ends the reading. The test
    [arg == '--pr' and len(sys.argv) > 2] holds when a third entry follows
    [--pr]. *)
Definition read_pr_number (argv : list string) : option Z + Z :=
  match argv with
  | _ :: arg :: rest =>
      match String.eqb arg "--pr", rest with
      | true, number :: _ => int_or_exit number
      | _, _ =>
          if isdigit arg || (PyStr.startswith arg "-" && isdigit (tail arg))
          then int_or_exit arg
          else inr 1
      end
  | _ => inl None
  end.

(** [main], up to the call of the reviewer. [if pr_number:] is false for
    [None] and for 0. *)
Definition dispatch (argv : list string) : action :=
  match read_pr_number argv with
  | inr code => Exit code
  | inl None => ReviewAll
  | inl (Some pr_number) =>
      if negb (pr_number =? 0) then
        if pr_number <=? 0 then Exit 1 else ReviewSingle pr_number
      else ReviewAll
  end.

End Main.

(** ** src/utils.py *)

Module Utils.

Definition safe_int (value : string) (default : Z) : Z :=
  match PyStr.to_int value with
  | Some n => n
  | None => default
  end.


End Utils.

(** ** Derived quantities and sample inputs used in the statements *)

Definition sample_config : Config.t :=
  {| Config.github_repository := "acme/widgets";
     Config.max_diff_length := 4000;
     Config.request_timeout := 30;
     Config.max_retries := 5 |}.


Module Samples.
Import LLMReviewer.

(** The number of added lines of a diff, as the fallback counts them. *)
Definition added_lines_of (diff_content : string) : Z :=
  count_lines is_added (PyStr.split diff_content PyStr.nl).
Definition removed_lines_of (diff_content : string) : Z :=
  count_lines is_removed (PyStr.split diff_content PyStr.nl).
Definition file_changes_of (diff_content : string) : Z :=
  count_lines is_file_marker (PyStr.split diff_content PyStr.nl).

(** A diff of [n] added lines. *)
Definition added_only (n : nat) : string :=
  String.concat (String PyStr.nl "") (List.repeat "+x" n).

End Samples.

(** [w'] continues [w] with the events [evs]. *)
Definition extends (w w' : World.t) (evs : list World.event) : Prop :=
  World.trace w' = (World.trace w ++ evs)%list.

(** An oracle that answers every HTTP call the same way, with the clock
    standing at 100 and every random draw equal to 1/2. *)
Definition oracle_always (out : World.outcome) : World.oracle :=
  {| World.net := fun _ => out;
     World.clock := fun _ => 100%Q;
     World.jitter := fun _ => (1 # 2)%Q |}.

(** A response that has only a status and headers. *)
Definition bare_response (status : Z) (hs : gmap string string) : World.response :=
  {| World.status_code := status; World.headers := hs;
     World.json := None; World.text := "" |}.

(** 403 Forbidden while quota is left: not a rate limit. *)
Definition forbidden_with_quota : World.response :=
  bare_response 403 {[ "X-RateLimit-Remaining" := "5" ]}.

(** 404 Not Found. *)
Definition not_found : World.response :=
  bare_response 404 {[ "X-RateLimit-Remaining" := "5" ]}.

(** 429 with the quota used up and a reset time 60 seconds after the clock
    of [oracle_always]. *)
Definition rate_limited_until_160 : World.response :=
  bare_response 429
    {[ "X-RateLimit-Remaining" := "0"; "X-RateLimit-Reset" := "160" ]}.

(** A success whose remaining-quota header is negative. *)
Definition negative_quota : World.response :=
  bare_response 200 {[ "X-RateLimit-Remaining" := "-5" ]}.

(** The server never announces a negative remaining quota. *)
Definition quota_headers_nonneg (o : World.oracle) : Prop :=
  forall (k : nat) (r : World.response) (v : string) (z : Z),
    World.net o k = World.Returned r ->
    World.headers r !! "X-RateLimit-Remaining" = Some v ->
    PyStr.to_int v = Some z ->
    0 <= z.

(** A 200 response with a JSON body. *)
Definition json_response (body : pyval) : World.response :=
  {| World.status_code := 200;
     World.headers := {[ "X-RateLimit-Remaining" := "59" ]};
     World.json := Some body; World.text := "" |}.

(** A positive integer, as a Python value. *)
Definition is_positive_int (v : pyval) : bool :=
  match Py.int_value v with
  | Some z => 0 <? z
  | None => false
  end.

(** A listing with one entry whose number is 0. *)
Definition listing_with_number_zero : pyval :=
  PyList [PyDict [("number", PyInt 0);
                  ("title", PyStr "Bump");
                  ("html_url", PyStr "https://github.com/acme/widgets/pull/0")]].

(** A listing with one well-formed entry. *)
Definition listing_with_number_seven : pyval :=
  PyList [PyDict [("number", PyInt 7);
                  ("title", PyStr "Bump");
                  ("html_url", PyStr "https://github.com/acme/widgets/pull/7")]].

(** A pull-request payload without a number. *)
Definition detail_without_number : pyval :=
  PyDict [("title", PyStr "Bump")].

(** An inference payload that is a list of vectors, as a feature-extraction
    model returns it, not a list of result objects. *)
Definition list_of_vectors : pyval :=
  PyList [PyList [PyFloat (12 # 100); PyFloat (-3 # 100)]].

(** 503: the model is still loading. *)
Definition model_loading : World.response := bare_response 503 gmap_empty.

(** 429 with the quota used up and no reset header. *)
Definition rate_limited_no_reset : World.response :=
  bare_response 429 {[ "X-RateLimit-Remaining" := "0" ]}.


(** A 200 response whose body is a small unified diff. *)
Definition diff_response : World.response :=
  {| World.status_code := 200;
     World.headers := {[ "X-RateLimit-Remaining" := "58" ]};
     World.json := None;
     World.text := "--- a/version.txt
+++ b/version.txt
@@ -1 +1 @@
-version = 1
+version = 2" |}.

(** A pull-request payload with a number and no author. *)
Definition detail_without_user : pyval :=
  PyDict [("number", PyInt 7);
          ("title", PyStr "Bump");
          ("html_url", PyStr "https://github.com/acme/widgets/pull/7")].




(** The repetition inside [Re.match_here] for a capturing [[^chars]+],
    under a name. *)
Definition group_loop (chars : string) (rest : list Re.atom)
    (caps : list string)
    : string -> string -> nat -> option (list string * nat) :=
  fix loop (s : string) (taken : string) (used : nat) :=
    match s with
    | String a s' =>
        if PyStr.mem a chars then None
        else
          let taken' := taken +:+ String a EmptyString in
          match loop s' taken' (S used) with
          | Some r => Some r
          | None => Re.match_here rest s' (caps ++ [taken']) (S used)
          end
    | EmptyString => None
    end.

(** The repetition inside [Re.match_here] for [[^chars]+], under a name. *)
Definition plain_loop (chars : string) (rest : list Re.atom)
    (caps : list string) : string -> nat -> option (list string * nat) :=
  fix loop (s : string) (used : nat) :=
    match s with
    | String a s' =>
        if PyStr.mem a chars then None
        else
          match loop s' (S used) with
          | Some r => Some r
          | None => Re.match_here rest s' caps (S used)
          end
    | EmptyString => None
    end.

(** All the characters of a string satisfy [p]. *)
Definition all_chars (p : ascii -> bool) (s : string) : bool :=
  Main.all_chars p s.

(** An environment with the three required variables. *)
Definition sample_env : gmap string string :=
  {[ "HF_API_KEY" := " hf_secret ";
     "GITHUB_TOKEN" := "ghp_0123456789";
     "GITHUB_REPOSITORY" := "acme/widgets" ]}.

(** The characters that do not end a sentence. *)
Definition not_terminal (a : ascii) : bool := negb (PyStr.mem a ".!?").

(** A result object of the inference API, as the parser can take it: an
    object whose [generated_text] is absent, falsy or a text. *)
Definition result_object (v : pyval) : bool :=
  match v with
  | PyDict d =>
      match Py.dict_get_default d "generated_text" (PyStr "") with
      | PyStr _ => true
      | g => negb (Py.truthy g)
      end
  | _ => false
  end.

(** A payload the parser can take: a list that starts with a result
    object, a result object, or anything that is neither a list with an
    element nor an object. *)
Definition well_shaped (v : pyval) : bool :=
  match v with
  | PyList (first :: _) => result_object first
  | PyDict d => result_object (PyDict d)
  | _ => true
  end.

(** Every JSON body the network returns is well shaped. *)
Definition payloads_well_shaped (o : World.oracle) : Prop :=
  forall (k : nat) (resp : World.response) (v : pyval),
    World.net o k = World.Returned resp ->
    World.json resp = Some v ->
    well_shaped v = true.

(** The seconds slept in a trace. *)
Definition total_sleep (tr : list World.event) : Q :=
  List.fold_right
    (fun e acc => match e with World.Sleep q => (q + acc)%Q | _ => acc end)
    0%Q tr.

(** 401 Unauthorized. *)
Definition unauthorized : World.response := bare_response 401 gmap_empty.

(** A 200 response with one result object. *)
Definition one_result : World.response :=
  json_response (PyList [PyDict [("generated_text", PyStr " Looks fine. Ship it")]]).

(** * Properties *)

(** ** Strings *)

Section StringFacts.

Lemma take_length (n : nat) (s : string) :
  String.length (PyStr.take n s) = Nat.min n (String.length s).
Proof.
  revert s; induction n as [|n IH]; intros [|a s]; simpl; auto.
Qed.

Lemma take_all (n : nat) (s : string) :
  (String.length s <= n)%nat -> PyStr.take n s = s.
Proof.
  revert s; induction n as [|n IH]; intros [|a s]; simpl; intros H;
    try reflexivity; try lia.
  f_equal; apply IH; lia.
Qed.

Lemma take_take (m n : nat) (s : string) :
  PyStr.take m (PyStr.take n s) = PyStr.take (Nat.min m n) s.
Proof.
  revert n s; induction m as [|m IH]; intros [|n] [|a s]; simpl; auto.
  f_equal; apply IH.
Qed.

Lemma get_take (i n : nat) (s : string) :
  (i < n)%nat -> String.get i (PyStr.take n s) = String.get i s.
Proof.
  revert n s; induction i as [|i IH]; intros [|n] [|a s]; simpl; intros H;
    try reflexivity; try lia.
  apply IH; lia.
Qed.

Lemma get_beyond (i : nat) (s : string) :
  (String.length s <= i)%nat -> String.get i s = None.
Proof.
  revert s; induction i as [|i IH]; intros [|a s]; simpl; intros H;
    try reflexivity; try lia.
  apply IH; lia.
Qed.

(** What the scan of [rfind] returns: the start value when the character
    does not occur, and otherwise the position of its last occurrence. *)
Lemma rfind_from_spec (c : ascii) (s : string) (i last : Z) :
  (PyStr.rfind_from c s i last = last
   /\ forall k, String.get k s <> Some c)
  \/ (exists k : nat,
        (k < String.length s)%nat
        /\ PyStr.rfind_from c s i last = i + Z.of_nat k
        /\ String.get k s = Some c
        /\ forall j, (k < j)%nat -> String.get j s <> Some c).
Proof.
  revert i last; induction s as [|a s IH]; intros i last; simpl.
  - left; split; [reflexivity|]. intros [|k]; discriminate.
  - destruct (IH (i + 1) (if Ascii.eqb a c then i else last))
      as [[Hr Hno] | (k & Hk & Hr & Hget & Hafter)].
    + destruct (Ascii.eqb a c) eqn:Hac.
      * right. exists 0%nat. apply Ascii.eqb_eq in Hac; subst a.
        repeat split; [lia | rewrite Hr; lia | ].
        intros [|j] Hj; [lia | apply Hno].
      * left. split; [exact Hr|].
        intros [|k]; [|apply Hno].
        apply Ascii.eqb_neq in Hac. congruence.
    + right. exists (S k). repeat split; [lia | rewrite Hr; lia | exact Hget | ].
      intros [|j] Hj; [lia | apply Hafter; lia].
Qed.


End StringFacts.

(** ** Rational comparisons *)

Lemma Qltb_true (x y : Q) : Qltb x y = true <-> (x < y)%Q.
Proof.
  unfold Qltb. rewrite Bool.negb_true_iff, <- Bool.not_true_iff_false, Qle_bool_iff.
  split; [apply Qnot_le_lt | apply Qlt_not_le].
Qed.

Lemma Qltb_false (x y : Q) : Qltb x y = false <-> (y <= x)%Q.
Proof.
  unfold Qltb. rewrite Bool.negb_false_iff, Qle_bool_iff. reflexivity.
Qed.

(** The test of [truncate_content], over the integers. *)
Lemma tail_window_test (max_chars last_newline : Z) :
  Qltb (inject_Z max_chars * (8 # 10)) (inject_Z last_newline) = true
  <-> 4 * max_chars < 5 * last_newline.
Proof.
  rewrite Qltb_true. unfold Qlt, Qmult, inject_Z; simpl. lia.
Qed.

(** ** Truncation of the diff ([truncate_content]) *)

Section Truncation.
Variable cfg : Config.t.

Lemma slice_to_nonneg (s : string) (n : Z) :
  0 <= n -> PyStr.slice_to s n = PyStr.take (Z.to_nat n) s.
Proof.
  intros H. unfold PyStr.slice_to.
  destruct (0 <=? n) eqn:E; [reflexivity | lia].
Qed.

Lemma at_index_get (s : string) (i : Z) (a : ascii) :
  PyStr.at_index s i = Some a <-> 0 <= i /\ String.get (Z.to_nat i) s = Some a.
Proof.
  unfold PyStr.at_index. destruct (i <? 0) eqn:E.
  - split; [discriminate | lia].
  - split; [intros H; split; [lia | exact H] | intros [_ H]; exact H].
Qed.

(** C5. Truncation is the identity on a text within the budget; on a longer
    text the result has at most [max_chars] characters, and when a newline
    stands in the first [max_chars] characters at a position above
    [0.8 * max_chars], the result is the text cut exactly at the last
    newline [q] of those first [max_chars] characters. *)
Theorem truncate_content_budget (content : string) (max_chars : Z)
    (Hpos : 0 < max_chars) :
  (PyStr.len content <= max_chars ->
     LLMReviewer.truncate_content cfg content (Some max_chars) = content)
  /\ (max_chars < PyStr.len content ->
        PyStr.len (LLMReviewer.truncate_content cfg content (Some max_chars))
          <= max_chars
        /\ forall p : Z,
             4 * max_chars < 5 * p -> p < max_chars ->
             PyStr.at_index content p = Some PyStr.nl ->
             exists q : Z,
               p <= q < max_chars
               /\ PyStr.at_index content q = Some PyStr.nl
               /\ (forall j : Z, q < j < max_chars ->
                     PyStr.at_index content j <> Some PyStr.nl)
               /\ LLMReviewer.truncate_content cfg content (Some max_chars)
                  = PyStr.slice_to content q).
Proof.
  unfold LLMReviewer.truncate_content, PyStr.len.
  split; intros Hlen.
  - destruct (_ <=? _) eqn:E; [reflexivity | lia].
  - destruct (_ <=? _) eqn:E; [lia | clear E].
    rewrite (slice_to_nonneg content max_chars) by lia.
    set (m := Z.to_nat max_chars).
    set (truncated := PyStr.take m content).
    assert (Hm : String.length truncated = m).
    { unfold truncated. rewrite take_length. lia. }
    unfold PyStr.rfind.
    destruct (rfind_from_spec PyStr.nl truncated 0 (-1))
      as [[Hr Hno] | (k & Hk & Hr & Hget & Hafter)]; rewrite Hr.
    + (* no newline in the window *)
      destruct (Qltb _ _) eqn:Ht.
      { apply tail_window_test in Ht. lia. }
      split; [lia|].
      intros p Hp1 Hp2 Hnl. exfalso.
      apply at_index_get in Hnl as [Hp0 Hnl].
      apply (Hno (Z.to_nat p)). unfold truncated.
      rewrite get_take by lia. exact Hnl.
    + (* the last newline of the window is at [k] *)
      rewrite Hm in Hk.
      assert (Hcut : PyStr.slice_to truncated (0 + Z.of_nat k)
                     = PyStr.take k content).
      { rewrite slice_to_nonneg by lia. unfold truncated.
        rewrite take_take. f_equal; lia. }
      assert (Hwin : forall p : Z, p < max_chars ->
                PyStr.at_index content p = Some PyStr.nl -> p <= Z.of_nat k).
      { intros p Hp Hnl. apply at_index_get in Hnl as [Hp0 Hnl].
        destruct (Z_le_gt_dec p (Z.of_nat k)) as [Hle | Hgt]; [exact Hle|].
        exfalso. apply (Hafter (Z.to_nat p)); [lia|].
        unfold truncated. rewrite get_take by lia. exact Hnl. }
      destruct (Qltb _ _) eqn:Ht.
      * apply tail_window_test in Ht. rewrite Hcut.
        split; [rewrite take_length; lia|].
        intros p Hp1 Hp2 Hnl. exists (Z.of_nat k).
        pose proof (Hwin p Hp2 Hnl) as Hpk.
        split; [lia|]. split.
        { apply at_index_get. split; [lia|].
          rewrite Nat2Z.id. unfold truncated in Hget.
          rewrite get_take in Hget by lia. exact Hget. }
        split.
        { intros j Hj Hnl'. specialize (Hwin j ltac:(lia) Hnl'). lia. }
        rewrite slice_to_nonneg by lia. rewrite Nat2Z.id. reflexivity.
      * assert (Hf : ~ 4 * max_chars < 5 * (0 + Z.of_nat k)).
        { intros Hc. apply tail_window_test in Hc. congruence. }
        split; [lia|].
        intros p Hp1 Hp2 Hnl. specialize (Hwin p Hp2 Hnl). lia.
Qed.

End Truncation.

(** A ten-character budget on a text whose tenth character is a newline. *)
Lemma truncate_content_budget_witness :
  0 < 10
  /\ exists q : Z,
       9 <= q < 10
       /\ LLMReviewer.truncate_content sample_config "first row
second row
third row" (Some 10)
          = PyStr.slice_to "first row
second row
third row" q.
Proof.
  split; [lia|].
  destruct (truncate_content_budget sample_config "first row
second row
third row" 10 ltac:(lia)) as [_ H].
  destruct (H ltac:(vm_compute; reflexivity)) as [_ H'].
  destruct (H' 9 ltac:(lia) ltac:(lia) ltac:(reflexivity))
    as (q & Hq & _ & _ & Heq).
  exists q. split; assumption.
Defined.

(** ** The fallback review ([_generate_fallback_review]) *)

Section Fallback.
Import LLMReviewer Samples.

Lemma fallback_report_of (diff_content : string) :
  diff_content <> "" ->
  _generate_fallback_review diff_content
  = fallback_report (file_changes_of diff_content)
      (added_lines_of diff_content) (removed_lines_of diff_content)
      (if added_lines_of diff_content >? 100 then "HIGH"
       else if added_lines_of diff_content >? 50 then "MEDIUM"
       else "LOW").
Proof.
  intros Hne. destruct diff_content as [|a s]; [congruence|]. reflexivity.
Qed.

(** C1, as the code has it. For every non-empty diff the report is the
    template filled with the three counts and a complexity that is LOW for
    0 to 50 added lines, MEDIUM for 51 to 100 and HIGH from 101 on. *)
Theorem fallback_complexity_thresholds (diff_content : string)
    (Hne : diff_content <> "") :
  let files := file_changes_of diff_content in
  let added := added_lines_of diff_content in
  let removed := removed_lines_of diff_content in
  0 <= added
  /\ (added <= 50 ->
        _generate_fallback_review diff_content
        = fallback_report files added removed "LOW")
  /\ (51 <= added <= 100 ->
        _generate_fallback_review diff_content
        = fallback_report files added removed "MEDIUM")
  /\ (101 <= added ->
        _generate_fallback_review diff_content
        = fallback_report files added removed "HIGH").
Proof.
  intros files added removed.
  rewrite (fallback_report_of diff_content Hne).
  fold files added removed.
  split; [unfold added, added_lines_of, count_lines; lia|].
  destruct (added >? 100) eqn:E1; destruct (added >? 50) eqn:E2;
    repeat split; intros; try reflexivity; lia.
Qed.

Lemma fallback_complexity_thresholds_witness :
  added_only 51 <> ""
  /\ _generate_fallback_review (added_only 51)
     = fallback_report 0 51 0 "MEDIUM".
Proof.
  assert (Hne : added_only 51 <> "") by (vm_compute; discriminate).
  split; [exact Hne|].
  destruct (fallback_complexity_thresholds (added_only 51) Hne)
    as (_ & _ & Hmed & _).
  rewrite Hmed by (vm_compute; split; discriminate).
  vm_compute. reflexivity.
Defined.

(** C1, as the specification states it, fails at its lower boundary: a diff of exactly
    50 added lines is reported LOW, not MEDIUM; and the empty diff gets the
    short report, which carries no classification at all. *)
Lemma fifty_added_lines_are_low :
  added_lines_of (added_only 50) = 50
  /\ _generate_fallback_review (added_only 50) = fallback_report 0 50 0 "LOW"
  /\ _generate_fallback_review (added_only 50)
     <> fallback_report 0 50 0 "MEDIUM"
  /\ added_lines_of "" = 0
  /\ _generate_fallback_review "" <> fallback_report 0 0 0 "LOW".
Proof.
  split; [vm_compute; reflexivity|].
  split; [vm_compute; reflexivity|].
  split.
  { intros H. apply (f_equal String.length) in H. vm_compute in H. discriminate. }
  split; [vm_compute; reflexivity|].
  intros H. apply (f_equal String.length) in H. vm_compute in H. discriminate.
Qed.

End Fallback.

(** ** The executor ([_handle_rate_limit], [_make_request]) *)

Section Executor.
Import World GitHubClient.

Variable cfg : Config.t.
Variable o : oracle.

Lemma requests_app (a b : list event) :
  requests (a ++ b)%list = (requests a + requests b)%nat.
Proof. unfold requests. rewrite List.filter_app, List.length_app. reflexivity. Qed.

Lemma sleeps_app (a b : list event) :
  sleeps (a ++ b)%list = (sleeps a + sleeps b)%nat.
Proof. unfold sleeps. rewrite List.filter_app, List.length_app. reflexivity. Qed.

Lemma no_event_counts : requests [] = 0%nat /\ sleeps [] = 0%nat.
Proof. split; reflexivity. Qed.

Lemma extends_refl (w : World.t) : extends w w [].
Proof. unfold extends. rewrite List.app_nil_r. reflexivity. Qed.

Lemma extends_trans (w1 w2 w3 : World.t) (e1 e2 : list event) :
  extends w1 w2 e1 -> extends w2 w3 e2 -> extends w1 w3 (e1 ++ e2)%list.
Proof.
  unfold extends. intros H1 H2. rewrite H2, H1, List.app_assoc. reflexivity.
Qed.

(** [_handle_rate_limit] reads the clock at most; it neither calls the
    network nor sleeps. *)
Lemma handle_rate_limit_trace (r : response) (w : World.t) :
  trace (snd (_handle_rate_limit o r w)) = trace w.
Proof.
  unfold _handle_rate_limit, time.
  destruct (negb _); [reflexivity|].
  destruct (PyStr.to_int _); [|reflexivity].
  destruct (_ && _); [reflexivity|].
  destruct (headers r !! _) as [s|]; [|reflexivity].
  destruct (PyStr.truthy s); [|reflexivity].
  destruct (PyStr.to_int s); [|reflexivity].
  cbv beta iota. destruct (Qltb _ _); reflexivity.
Qed.

Lemma backoff_or_give_up_trace (attempt max_retries : Z) (c : GitHubClient.t)
    (w : World.t) :
  exists evs,
    extends w (turn_world (backoff_or_give_up o attempt max_retries c w)) evs
    /\ requests evs = 0%nat /\ (sleeps evs <= 1)%nat.
Proof.
  unfold backoff_or_give_up. destruct (attempt <? max_retries).
  - eexists. split; [reflexivity|]. split; [reflexivity | cbn; lia].
  - exists []. split; [apply extends_refl | split; [reflexivity | cbn; lia]].
Qed.

(** One turn of the loop issues exactly one request and sleeps at most
    once. *)
Lemma attempt_body_trace (url : string) (is_diff : bool)
    (max_retries attempt : Z) (c : GitHubClient.t) (w : World.t) :
  exists evs,
    extends w (turn_world (attempt_body o url is_diff max_retries attempt c w)) evs
    /\ requests evs = 1%nat /\ (sleeps evs <= 1)%nat.
Proof.
  unfold attempt_body.
  set (w1 := snd (http o (Get url is_diff) w)).
  assert (H1 : extends w w1 [Get url is_diff]) by reflexivity.
  change (http o (Get url is_diff) w) with (net o (calls w), w1).
  cbv beta iota.
  assert (Hstep : forall x,
             (exists evs, extends w1 (turn_world x) evs
                          /\ requests evs = 0%nat /\ (sleeps evs <= 1)%nat) ->
             exists evs, extends w (turn_world x) evs
                         /\ requests evs = 1%nat /\ (sleeps evs <= 1)%nat).
  { intros x (evs & He & Hr & Hs). exists ([Get url is_diff] ++ evs)%list.
    split; [eapply extends_trans; eauto|].
    rewrite requests_app, sleeps_app, Hr. cbn. split; lia. }
  apply Hstep. clearbody w1. clear H1 Hstep.
  destruct (net o (calls w)) as [resp| | |].
  - unfold time. cbv beta iota.
    set (w2 := {| calls := calls w1; ticks := S (ticks w1); draws := draws w1;
                  trace := trace w1 |}).
    assert (H2 : extends w1 w2 [])
      by (unfold extends, w2; cbn; rewrite List.app_nil_r; reflexivity).
    clearbody w2.
    destruct (PyStr.to_int _) as [remaining|].
    + destruct (_ || _).
      * pose proof (handle_rate_limit_trace resp w2) as Hh.
        destruct (_handle_rate_limit o resp w2) as [[[sl|]|e] w3];
          cbn [snd] in Hh.
        -- exists ([] ++ [Sleep (inject_Z sl)])%list.
           split; [|split; [reflexivity | cbn; lia]].
           eapply extends_trans; [exact H2|].
           unfold extends. cbn. rewrite Hh. reflexivity.
        -- match goal with
           | |- context [backoff_or_give_up o attempt max_retries ?c' w3] =>
               destruct (backoff_or_give_up_trace attempt max_retries c' w3)
                 as (evs & He & Hr & Hs)
           end.
           exists ([] ++ evs)%list. split; [|split; assumption].
           eapply extends_trans; [exact H2|].
           unfold extends in *. rewrite He, Hh. reflexivity.
        -- exists []. split; [|split; [reflexivity | cbn; lia]].
           unfold extends in *. cbn. rewrite Hh. exact H2.
      * destruct (World.ok resp); exists [];
          (split; [exact H2 | split; [reflexivity | cbn; lia]]).
    + exists []. split; [exact H2 | split; [reflexivity | cbn; lia]].
  - apply backoff_or_give_up_trace.
  - apply backoff_or_give_up_trace.
  - exists []. split; [apply extends_refl | split; [reflexivity | cbn; lia]].
Qed.

(** The loop issues at most one request, and sleeps at most once, per
    attempt left to run. *)
Lemma attempts_trace (url : string) (is_diff : bool) (max_retries : Z)
    (todo : list Z) (c : GitHubClient.t) (w : World.t) :
  exists evs,
    extends w (snd (attempts o url is_diff max_retries todo c w)) evs
    /\ (requests evs <= List.length todo)%nat
    /\ (sleeps evs <= List.length todo)%nat.
Proof.
  revert c w; induction todo as [|attempt todo IH]; intros c w; simpl.
  - exists []. split; [apply extends_refl | split; cbn; lia].
  - destruct (attempt_body_trace url is_diff max_retries attempt c w)
      as (e1 & He1 & Hr1 & Hs1).
    destruct (attempt_body o url is_diff max_retries attempt c w)
      as [c1 w1 | r c1 w1]; simpl in He1.
    + destruct (IH c1 w1) as (e2 & He2 & Hr2 & Hs2).
      exists (e1 ++ e2)%list. split; [eapply extends_trans; eauto|].
      rewrite requests_app, sleeps_app. split; lia.
    + exists e1. simpl. split; [exact He1 | split; lia].
Qed.

Lemma range_length (n : Z) : List.length (range n) = Z.to_nat n.
Proof. unfold range. rewrite List.length_map, List.length_seq. reflexivity. Qed.

(** C2. With a retry ceiling [n >= 0], [_make_request] adds at most [n + 1]
    requests to the trace, whatever the network, the clock and the random
    generator answer and whatever it returns; it sleeps at most [n + 2]
    times (once for the call spacing, at most once per attempt). The
    function is total: every run ends. *)
Theorem make_request_attempts_bounded (url : string) (is_diff : bool) (n : Z)
    (c : GitHubClient.t) (w : World.t) (Hn : 0 <= n) :
  exists evs,
    extends w (snd (_make_request cfg o url is_diff (Some n) c w)) evs
    /\ Z.of_nat (requests evs) <= n + 1
    /\ Z.of_nat (sleeps evs) <= n + 2.
Proof.
  unfold _make_request, time. cbv beta iota zeta.
  match goal with
  | |- context [attempts o url is_diff n (range (n + 1)) c ?w0] =>
      assert (H2 : exists e0, extends w w0 e0 /\ requests e0 = 0%nat
                              /\ (sleeps e0 <= 1)%nat);
      [| generalize dependent w0; intros w2 H2 ]
  end.
  { destruct (Qltb _ _).
    - eexists. split; [reflexivity | split; [reflexivity | cbn; lia]].
    - exists []. split; [|split; [reflexivity | cbn; lia]].
      unfold extends. cbn. rewrite List.app_nil_r. reflexivity. }
  destruct H2 as (e0 & He0 & Hr0 & Hs0).
  destruct (attempts_trace url is_diff n (range (n + 1)) c w2)
    as (e1 & He1 & Hr1 & Hs1).
  rewrite range_length in Hr1, Hs1.
  exists (e0 ++ e1)%list. split; [eapply extends_trans; eauto|].
  rewrite requests_app, sleeps_app. split; lia.
Qed.

End Executor.

(** Every call times out and the ceiling is 2: three requests, at most. *)
Lemma make_request_attempts_bounded_witness :
  0 <= 2
  /\ exists evs,
       extends World.initial
         (snd (GitHubClient._make_request sample_config
                 (oracle_always World.Timeout) "https://api.github.com/x" false
                 (Some 2) GitHubClient.init World.initial)) evs
       /\ Z.of_nat (World.requests evs) <= 2 + 1
       /\ Z.of_nat (World.sleeps evs) <= 2 + 2.
Proof.
  split; [lia|].
  apply (make_request_attempts_bounded sample_config
           (oracle_always World.Timeout) "https://api.github.com/x" false 2
           GitHubClient.init World.initial).
  lia.
Defined.

(** The bound of [make_request_attempts_bounded] is reached: with a ceiling
    of 2 and a network that always times out, three requests are sent, with
    a backoff of [2 ** attempt + 1/2] seconds after the first two. *)
Example three_requests_under_ceiling_two :
  GitHubClient._make_request sample_config (oracle_always World.Timeout)
    "https://api.github.com/x" false (Some 2) GitHubClient.init World.initial
  = (Ok None, GitHubClient.init,
     {| World.calls := 3; World.ticks := 1; World.draws := 2;
        World.trace :=
          [World.Get "https://api.github.com/x" false; World.Sleep (3 # 2);
           World.Get "https://api.github.com/x" false; World.Sleep (5 # 2);
           World.Get "https://api.github.com/x" false] |}).
Proof. vm_compute. reflexivity. Qed.

(** A 429 with no quota left and no reset header is retried with exponential
    backoff. *)
Example rate_limit_without_reset_backs_off :
  World.trace
    (snd (GitHubClient._make_request sample_config
            (oracle_always (World.Returned rate_limited_no_reset))
            "https://api.github.com/x" false (Some 1) GitHubClient.init
            World.initial))
  = [World.Get "https://api.github.com/x" false; World.Sleep (3 # 2);
     World.Get "https://api.github.com/x" false].
Proof. vm_compute. reflexivity. Qed.

(** ** Rate limits ([_handle_rate_limit] and the Rate-Limit State) *)

Section RateLimit.
Import World GitHubClient.

Variable o : oracle.


(** C4, at its failing input: a 403 with quota left is, for
    [_handle_rate_limit], not a rate limit; yet [_make_request] takes the
    [None] it returns as the request for exponential backoff, sleeps and
    sends the request again, where a 404 fails after one request and no
    sleep. *)
Theorem forbidden_with_quota_is_retried :
  let run resp :=
    _make_request sample_config (oracle_always (Returned resp))
      "https://api.github.com/repos/acme/widgets/pulls/7" false (Some 1)
      init World.initial in
  fst (_handle_rate_limit (oracle_always (Returned forbidden_with_quota))
         forbidden_with_quota World.initial) = Ok None
  /\ fst (fst (run forbidden_with_quota)) = Ok None
  /\ trace (snd (run forbidden_with_quota))
     = [Get "https://api.github.com/repos/acme/widgets/pulls/7" false;
        Sleep (3 # 2);
        Get "https://api.github.com/repos/acme/widgets/pulls/7" false]
  /\ fst (fst (run not_found)) = Ok None
  /\ trace (snd (run not_found))
     = [Get "https://api.github.com/repos/acme/widgets/pulls/7" false].
Proof. vm_compute. repeat split. Qed.

End RateLimit.


(** ** The Rate-Limit State *)

Section RateLimitState.
Import World GitHubClient.

Variable cfg : Config.t.
Variable o : oracle.

Lemma backoff_or_give_up_client (attempt max_retries : Z) (c : GitHubClient.t)
    (w : World.t) :
  turn_client (backoff_or_give_up o attempt max_retries c w) = c.
Proof.
  unfold backoff_or_give_up. destruct (attempt <? max_retries); reflexivity.
Qed.

(** After one turn the counter is the integer read from the header of the
    response of this turn, when there is one and it parses; it is unchanged
    otherwise. *)
Lemma attempt_body_remaining (url : string) (is_diff : bool)
    (max_retries attempt : Z) (c : GitHubClient.t) (w : World.t) :
  rate_limit_remaining
    (turn_client (attempt_body o url is_diff max_retries attempt c w))
  = match net o (calls w) with
    | Returned resp =>
        match PyStr.to_int (header_or resp "X-RateLimit-Remaining" "10") with
        | Some z => z
        | None => rate_limit_remaining c
        end
    | _ => rate_limit_remaining c
    end.
Proof.
  unfold attempt_body, http, time. cbv beta iota.
  destruct (net o (calls w)) as [resp| | |];
    rewrite ?backoff_or_give_up_client; try reflexivity.
  destruct (PyStr.to_int _) as [z|]; [|reflexivity].
  destruct (_ || _).
  - destruct (_handle_rate_limit o resp _) as [[[sl|]|e] w3];
      rewrite ?backoff_or_give_up_client; reflexivity.
  - destruct (World.ok resp); reflexivity.
Qed.

Lemma attempts_remaining_nonneg (url : string) (is_diff : bool)
    (max_retries : Z) (todo : list Z) (c : GitHubClient.t) (w : World.t) :
  quota_headers_nonneg o ->
  0 <= rate_limit_remaining c ->
  0 <= rate_limit_remaining
         (snd (fst (attempts o url is_diff max_retries todo c w))).
Proof.
  intros Hq. revert c w; induction todo as [|attempt todo IH]; intros c w Hc.
  - exact Hc.
  - cbn [attempts].
    pose proof (attempt_body_remaining url is_diff max_retries attempt c w) as Hb.
    assert (Hc1 : 0 <= rate_limit_remaining
                         (turn_client
                            (attempt_body o url is_diff max_retries attempt c w))).
    { rewrite Hb. destruct (net o (calls w)) as [resp| | |] eqn:Hnet; try exact Hc.
      unfold header_or.
      destruct (headers resp !! "X-RateLimit-Remaining") as [v|] eqn:Hv.
      - destruct (PyStr.to_int v) as [z|] eqn:Hz; [|exact Hc].
        exact (Hq _ _ _ _ Hnet Hv Hz).
      - vm_compute. discriminate. }
    destruct (attempt_body o url is_diff max_retries attempt c w)
      as [c1 w1 | r c1 w1]; cbn [turn_client] in Hc1.
    + apply IH. exact Hc1.
    + exact Hc1.
Qed.

(** C8, as the code has it. After a completed call the counter is exactly
    [int(header)] (10 without the header): nothing is clamped. It stays
    non-negative as long as no response announces a negative remaining
    quota. *)
Theorem rate_limit_remaining_follows_header (url : string) (is_diff : bool)
    (max_retries : option Z) (ceiling attempt : Z) (c : GitHubClient.t)
    (w : World.t) :
  (forall (resp : response) (z : Z),
      net o (calls w) = Returned resp ->
      PyStr.to_int (header_or resp "X-RateLimit-Remaining" "10") = Some z ->
      rate_limit_remaining
        (turn_client (attempt_body o url is_diff ceiling attempt c w)) = z)
  /\ (quota_headers_nonneg o ->
      0 <= rate_limit_remaining c ->
      0 <= rate_limit_remaining
             (snd (fst (_make_request cfg o url is_diff max_retries c w)))).
Proof.
  split.
  - intros resp z Hnet Hz. rewrite attempt_body_remaining, Hnet, Hz. reflexivity.
  - intros Hq Hc. unfold _make_request, time. cbv beta iota zeta.
    apply attempts_remaining_nonneg; assumption.
Qed.

End RateLimitState.

Lemma not_found_quota_nonneg :
  quota_headers_nonneg (oracle_always (World.Returned not_found)).
Proof.
  intros k r v z Hnet Hv Hz. cbn in Hnet. injection Hnet as <-.
  vm_compute in Hv. injection Hv as <-.
  vm_compute in Hz. injection Hz as <-. lia.
Defined.

Lemma rate_limit_remaining_follows_header_witness :
  GitHubClient.rate_limit_remaining
    (GitHubClient.turn_client
       (GitHubClient.attempt_body (oracle_always (World.Returned not_found))
          "https://api.github.com/x" false 5 0 GitHubClient.init World.initial))
  = 5
  /\ 0 <= GitHubClient.rate_limit_remaining
            (snd (fst (GitHubClient._make_request sample_config
                         (oracle_always (World.Returned not_found))
                         "https://api.github.com/x" false None
                         GitHubClient.init World.initial))).
Proof.
  destruct (rate_limit_remaining_follows_header sample_config
              (oracle_always (World.Returned not_found))
              "https://api.github.com/x" false None 5 0
              GitHubClient.init World.initial) as [Hstep Hinv].
  split.
  - apply (Hstep not_found); [reflexivity | vm_compute; reflexivity].
  - apply Hinv; [exact not_found_quota_nonneg | vm_compute; discriminate].
Defined.

(** C8, as the specification states it, fails: a remaining-quota header of -5 is stored
    as it is, and the counter is negative after the call. *)
Lemma negative_quota_header_is_stored :
  let c' :=
    snd (fst (GitHubClient._make_request sample_config
                (oracle_always (World.Returned negative_quota))
                "https://api.github.com/x" false None
                GitHubClient.init World.initial)) in
  GitHubClient.rate_limit_remaining c' = -5
  /\ ~ 0 <= GitHubClient.rate_limit_remaining c'.
Proof. vm_compute. split; [reflexivity | intros H; apply H; reflexivity]. Qed.

(** ** The gateway ([get_open_pull_requests], [get_pull_request_details]) *)

Section Gateway.
Import World GitHubClient.

Variable cfg : Config.t.
Variable o : oracle.

(** What the loop of [get_open_pull_requests] lets through. *)
Lemma summaries_essential (prs : list pyval) (d : list (string * pyval)) :
  In d (summaries prs) ->
  Py.dict_get d "number" <> PyNone
  /\ Py.truthy (Py.dict_get d "html_url") = true.
Proof.
  induction prs as [|pr prs IH]; [intros []|].
  destruct pr as [| | | | | |pr]; cbn [summaries]; try exact IH.
  change (Py.dict_get (("number", Py.dict_get pr "number") :: _) "number")
    with (Py.dict_get pr "number").
  set (url := Py.or_else (Py.dict_get pr "html_url") (PyStr "")).
  set (entry := [("number", Py.dict_get pr "number"); _; _; ("html_url", url); _]).
  assert (Hn : Py.dict_get entry "number" = Py.dict_get pr "number") by reflexivity.
  assert (Hu : Py.dict_get entry "html_url" = url) by reflexivity.
  destruct (Py.dict_get pr "number") eqn:Hnum; try exact IH;
    (rewrite Hu; destruct (Py.truthy url) eqn:Hurl; cbn [negb]; [|exact IH];
     intros [<- | Hin]; [|exact (IH Hin)];
     rewrite Hn, Hu; split; [discriminate | exact Hurl]).
Qed.

Lemma validate_pr_data_number (d : list (string * pyval)) :
  PRReviewer.validate_pr_data d = true ->
  exists n : Z, Py.int_value (Py.dict_get d "number") = Some n /\ 0 < n.
Proof.
  unfold PRReviewer.validate_pr_data.
  destruct (negb _); [discriminate|].
  destruct (Py.int_value _) as [n|]; [|discriminate].
  destruct (n <=? 0) eqn:E; [discriminate|].
  intros _. exists n. split; [reflexivity | lia].
Qed.

(** A response handed back by the loop is one the network returned. *)
Lemma attempt_body_response (url : string) (is_diff : bool)
    (max_retries attempt : Z) (c c' : GitHubClient.t) (w w' : World.t)
    (resp : response) :
  attempt_body o url is_diff max_retries attempt c w
  = Return (Ok (Some resp)) c' w' ->
  net o (calls w) = Returned resp.
Proof.
  unfold attempt_body, http, time, backoff_or_give_up. cbv beta iota.
  destruct (net o (calls w)) as [r| | |]; try (destruct (_ <? _); discriminate);
    try discriminate.
  destruct (PyStr.to_int _); [|discriminate].
  destruct (_ || _).
  - destruct (_handle_rate_limit o r _) as [[[sl|]|e] w3]; try discriminate.
    destruct (_ <? _); discriminate.
  - destruct (World.ok r); [|discriminate]. intros [= -> _ _]. reflexivity.
Qed.

Lemma attempts_response (url : string) (is_diff : bool) (max_retries : Z)
    (todo : list Z) (c : GitHubClient.t) (w : World.t) (resp : response) :
  fst (fst (attempts o url is_diff max_retries todo c w)) = Ok (Some resp) ->
  exists k : nat, net o k = Returned resp.
Proof.
  revert c w; induction todo as [|attempt todo IH]; intros c w; [discriminate|].
  cbn [attempts].
  destruct (attempt_body o url is_diff max_retries attempt c w)
    as [c1 w1 | r c1 w1] eqn:Hbody.
  - apply IH.
  - cbn [fst]. intros ->. exists (calls w).
    eapply attempt_body_response. exact Hbody.
Qed.

(** C3, as the code has it. Every Summary of the list returned by
    [get_open_pull_requests] has a number that is present (not [None]) and a
    non-empty URL; the gateway does not check that the number is a positive
    integer. A Detail returned by [get_pull_request_details] carries the
    number of the payload as it came, [None] when the payload has none; it is
    the orchestrator that checks it: a Detail accepted by [validate_pr_data]
    has a positive integer number. *)
Theorem exposed_numbers_are_present (c : GitHubClient.t) (w : World.t) :
  (forall (prs : list (list (string * pyval))) (d : list (string * pyval)),
      fst (fst (get_open_pull_requests cfg o c w)) = Ok prs ->
      In d prs ->
      Py.dict_get d "number" <> PyNone
      /\ Py.truthy (Py.dict_get d "html_url") = true)
  /\ (forall (pr_number : Z) (d : list (string * pyval)),
        fst (fst (get_pull_request_details cfg o pr_number c w)) = Ok (Some d) ->
        (exists (k : nat) (resp : response) (pr_data : list (string * pyval)),
            net o k = Returned resp
            /\ json resp = Some (PyDict pr_data)
            /\ Py.dict_get d "number" = Py.dict_get pr_data "number")
        /\ (PRReviewer.validate_pr_data d = true ->
            exists n : Z,
              Py.int_value (Py.dict_get d "number") = Some n /\ 0 < n)).
Proof.
  split.
  - intros prs d. unfold get_open_pull_requests.
    destruct (_make_request _ _ _ _ _ _ _) as [[[[resp|]|e] c1] w1];
      cbn [fst]; try discriminate.
    + destruct (negb _); cbn [fst].
      { intros [= <-] []. }
      destruct (json resp) as [[| | | | |l|]|]; cbn [fst];
        try (intros [= <-] []).
      intros [= <-]. apply summaries_essential.
    + intros [= <-] [].
  - intros pr_number d Hd. split; [|apply validate_pr_data_number].
    revert Hd. unfold get_pull_request_details.
    destruct (_make_request _ _ _ _ _ _ _) as [[[[resp|]|e] c1] w1] eqn:Hreq;
      cbn [fst]; try discriminate.
    destruct (negb _); cbn [fst]; [discriminate|].
    destruct (json resp) as [[| | | | | |pr_data]|] eqn:Hjson; cbn [fst];
      try discriminate.
    intros [= <-].
    assert (Hresp : fst (fst (_make_request cfg o
                                (base_url +:+ "/repos/"
                                 +:+ Config.github_repository cfg +:+ "/pulls/"
                                 +:+ PyStr.of_Z pr_number)
                                false None c w)) = Ok (Some resp))
      by (rewrite Hreq; reflexivity).
    unfold _make_request, time in Hresp. cbv beta iota zeta in Hresp.
    apply attempts_response in Hresp as [k Hk].
    exists k, resp, pr_data. repeat split; assumption.
Qed.

End Gateway.

Lemma exposed_numbers_are_present_witness :
  exists d : list (string * pyval),
    fst (fst (GitHubClient.get_open_pull_requests sample_config
                (oracle_always (World.Returned (json_response listing_with_number_seven)))
                GitHubClient.init World.initial)) = Ok [d]
    /\ Py.dict_get d "number" <> PyNone
    /\ Py.truthy (Py.dict_get d "html_url") = true.
Proof.
  destruct (exposed_numbers_are_present sample_config
              (oracle_always (World.Returned (json_response listing_with_number_seven)))
              GitHubClient.init World.initial) as [Hlist _].
  eexists. split; [vm_compute; reflexivity|].
  eapply Hlist; [vm_compute; reflexivity | left; reflexivity].
Defined.

(** C3, as the specification states it, fails: an entry numbered 0 is listed, and a
    payload without a number yields a Detail whose number is [None]. *)
Lemma nonpositive_and_missing_numbers_are_exposed :
  (exists d : list (string * pyval),
      fst (fst (GitHubClient.get_open_pull_requests sample_config
                  (oracle_always (World.Returned (json_response listing_with_number_zero)))
                  GitHubClient.init World.initial)) = Ok [d]
      /\ Py.dict_get d "number" = PyInt 0
      /\ is_positive_int (Py.dict_get d "number") = false)
  /\ (exists d : list (string * pyval),
        fst (fst (GitHubClient.get_pull_request_details sample_config
                    (oracle_always (World.Returned (json_response detail_without_number)))
                    7 GitHubClient.init World.initial)) = Ok (Some d)
        /\ Py.dict_get d "number" = PyNone
        /\ is_positive_int (Py.dict_get d "number") = false).
Proof.
  split; eexists; (split; [vm_compute; reflexivity|]); split; reflexivity.
Qed.

(** ** Repository identifiers ([_parse_repository]) *)

(** C7, at its failing inputs. The scenario of the specification comes out
    right, but only because [widgets] does not end in one of the characters
    of [.git]: [rstrip('.git')] removes every trailing [.], [g], [i] and
    [t], so other repository names lose their last letters, with or without
    the suffix, and a name made of these letters is rejected. *)
Theorem parse_repository_strips_trailing_letters :
  Config._parse_repository "https://github.com/acme/widgets.git" = Ok "acme/widgets"
  /\ Config._parse_repository "https://github.com/acme/digit.git" = Ok "acme/d"
  /\ Config._parse_repository "https://github.com/acme/digit" = Ok "acme/d"
  /\ Config._parse_repository "https://github.com/acme/git.git" = Raise ValueError.
Proof. vm_compute. repeat split. Qed.

(** ** The review generator ([_call_huggingface_api] and its callers) *)

Section Reviewer.
Import World LLMReviewer.

Variable cfg : Config.t.
Variable o : oracle.

(** With fuel above [max_retries - retry_count] the call returns, and it has
    sent at most [max_retries - retry_count] requests (none when the count
    has already reached the ceiling). *)
Lemma call_huggingface_api_returns (prompt : string) (fuel : nat) :
  forall (retry_count : Z) (w : World.t),
    (Z.to_nat (Config.max_retries cfg - retry_count) < fuel)%nat ->
    exists (r : result (option string)) (w' : World.t) (evs : list event),
      _call_huggingface_api fuel cfg o prompt retry_count w = Some (r, w')
      /\ extends w w' evs
      /\ Z.of_nat (requests evs) <= Z.max 0 (Config.max_retries cfg - retry_count).
Proof.
  induction fuel as [|fuel IH]; intros retry_count w Hfuel; [lia|].
  cbn [_call_huggingface_api].
  destruct (retry_count >=? Config.max_retries cfg) eqn:Hguard.
  { exists (Ok None), w, []. split; [reflexivity|].
    split; [apply extends_refl | cbn; lia]. }
  assert (Hlt : retry_count < Config.max_retries cfg) by lia.
  unfold http. cbv beta iota.
  set (w1 := {| calls := S (calls w); ticks := ticks w; draws := draws w;
                trace := (trace w ++ [Post prompt])%list |}).
  assert (Hstop : forall r : result (option string),
             exists (r' : result (option string)) (w' : World.t)
                    (evs : list event),
               Some (r, w1) = Some (r', w')
               /\ extends w w' evs
               /\ Z.of_nat (requests evs)
                  <= Z.max 0 (Config.max_retries cfg - retry_count)).
  { intros r. exists r, w1, [Post prompt]. split; [reflexivity|].
    split; [reflexivity | cbn; lia]. }
  assert (Hretry : forall seconds : Z,
             exists (r' : result (option string)) (w' : World.t)
                    (evs : list event),
               _call_huggingface_api fuel cfg o prompt (retry_count + 1)
                 (sleep (inject_Z seconds) w1) = Some (r', w')
               /\ extends w w' evs
               /\ Z.of_nat (requests evs)
                  <= Z.max 0 (Config.max_retries cfg - retry_count)).
  { intros seconds.
    destruct (IH (retry_count + 1) (sleep (inject_Z seconds) w1))
      as (r & w' & evs & Hcall & Hext & Hreq); [lia|].
    exists r, w', ([Post prompt; Sleep (inject_Z seconds)] ++ evs)%list.
    split; [exact Hcall|]. split.
    - eapply extends_trans; [|exact Hext]. unfold extends. cbn.
      rewrite <- List.app_assoc. reflexivity.
    - rewrite requests_app. cbn. lia. }
  destruct (net o (calls w)) as [resp| | |].
  - destruct (status_code resp =? 200); [apply Hstop|].
    destruct (status_code resp =? 503); [apply Hretry|].
    destruct (_ && _); [apply Hretry | apply Hstop].
  - destruct (retry_count <? _); [apply Hretry | apply Hstop].
  - destruct (retry_count <? _); [apply Hretry | apply Hstop].
  - destruct (retry_count <? _); [apply Hretry | apply Hstop].
Qed.

(** The generator always comes back: the fuel it passes is enough. *)
Lemma generate_review_with_fallback_returns
    (pr_title pr_description diff_content : string) (w : World.t) :
  exists (r : result string) (w' : World.t),
    generate_review_with_fallback cfg o pr_title pr_description diff_content w
    = Some (r, w').
Proof.
  unfold generate_review_with_fallback, generate_review.
  match goal with
  | |- context [_call_huggingface_api _ cfg o ?p 0 w] =>
      destruct (call_huggingface_api_returns p (enough_fuel cfg 0) 0 w)
        as (r & w' & evs & Hcall & _); [unfold enough_fuel; lia|];
      rewrite Hcall
  end.
  destruct r as [[review|]|e]; [|eauto..].
  destruct (PyStr.truthy review); [|eauto].
  destruct (PyStr.truthy (_clean_review_response review)); eauto.
Qed.

Lemma fallback_review_nonempty (diff_content : string) :
  PyStr.truthy (_generate_fallback_review diff_content) = true.
Proof.
  unfold _generate_fallback_review.
  destruct (negb _); [reflexivity|]. reflexivity.
Qed.

(** A document the generator returns is never empty. *)
Lemma generate_review_with_fallback_nonempty
    (pr_title pr_description diff_content : string) (w w' : World.t)
    (doc : string) :
  generate_review_with_fallback cfg o pr_title pr_description diff_content w
  = Some (Ok doc, w') ->
  PyStr.truthy doc = true.
Proof.
  unfold generate_review_with_fallback.
  destruct (generate_review _ _ _ _ _ _) as [[[[review|]|e] w1]|];
    try discriminate.
  - destruct (PyStr.truthy review) eqn:Ht; intros [= <- _];
      [exact Ht | apply fallback_review_nonempty].
  - intros [= <- _]. apply fallback_review_nonempty.
Qed.

(** C10. With a ceiling [max_retries >= 0] the inference call, started at
    [retry_count = 0], returns after at most [max_retries] POST requests; with
    a ceiling of 0 it returns [None] without any request, and the generator
    hands out the fallback review. *)
Theorem inference_attempts_bounded (prompt : string) (w : World.t)
    (Hceiling : 0 <= Config.max_retries cfg) :
  (exists (r : result (option string)) (w' : World.t) (evs : list event),
      _call_huggingface_api (enough_fuel cfg 0) cfg o prompt 0 w = Some (r, w')
      /\ extends w w' evs
      /\ Z.of_nat (requests evs) <= Config.max_retries cfg)
  /\ (Config.max_retries cfg = 0 ->
      _call_huggingface_api (enough_fuel cfg 0) cfg o prompt 0 w
      = Some (Ok None, w)
      /\ forall pr_title pr_description diff_content : string,
           generate_review_with_fallback cfg o pr_title pr_description
             diff_content w
           = Some (Ok (_generate_fallback_review diff_content), w)).
Proof.
  split.
  - destruct (call_huggingface_api_returns prompt (enough_fuel cfg 0) 0 w)
      as (r & w' & evs & Hcall & Hext & Hreq); [unfold enough_fuel; lia|].
    exists r, w', evs. repeat split; [exact Hcall | exact Hext | lia].
  - intros Hzero.
    assert (Hnone : forall p : string,
               _call_huggingface_api (enough_fuel cfg 0) cfg o p 0 w
               = Some (Ok None, w)).
    { intros p. unfold enough_fuel. cbn [_call_huggingface_api].
      rewrite Hzero. reflexivity. }
    split; [apply Hnone|].
    intros pr_title pr_description diff_content.
    unfold generate_review_with_fallback, generate_review.
    rewrite Hnone. reflexivity.
Qed.

End Reviewer.

(** Every call is answered 503 and the ceiling is 5. *)
Lemma inference_attempts_bounded_witness :
  0 <= Config.max_retries sample_config
  /\ exists (r : result (option string)) (w' : World.t) (evs : list World.event),
       LLMReviewer._call_huggingface_api
         (LLMReviewer.enough_fuel sample_config 0) sample_config
         (oracle_always (World.Returned model_loading)) "prompt" 0
         World.initial = Some (r, w')
       /\ extends World.initial w' evs
       /\ Z.of_nat (World.requests evs) <= Config.max_retries sample_config.
Proof.
  assert (H : 0 <= Config.max_retries sample_config) by (vm_compute; discriminate).
  split; [exact H|].
  exact (proj1 (inference_attempts_bounded sample_config
                  (oracle_always (World.Returned model_loading))
                  "prompt" World.initial H)).
Defined.

(** C9, at its failing input: the endpoint answers 200 with a JSON list whose
    first element is a list of numbers, not a result object. [result[0].get]
    then raises [AttributeError], which no handler of the generator catches:
    the caller gets an exception, not a document. *)
Theorem list_of_vectors_breaks_the_generator :
  LLMReviewer.parse_success (json_response list_of_vectors) = Raise AttributeError
  /\ exists w' : World.t,
       LLMReviewer.generate_review_with_fallback sample_config
         (oracle_always (World.Returned (json_response list_of_vectors)))
         "Bump" "Bump the version" "+version = 2" World.initial
       = Some (Raise AttributeError, w')
       /\ World.requests (World.trace w') = 1%nat.
Proof.
  split; [reflexivity|].
  eexists. split; [vm_compute; reflexivity | reflexivity].
Qed.

(** The bound of [inference_attempts_bounded] is reached: with a ceiling of 5
    and a model that keeps loading, five requests are sent and the fallback
    review is returned. *)
Example five_posts_under_ceiling_five :
  exists w' : World.t,
    LLMReviewer.generate_review_with_fallback sample_config
      (oracle_always (World.Returned model_loading))
      "Bump" "Bump the version" "+version = 2" World.initial
    = Some (Ok (LLMReviewer._generate_fallback_review "+version = 2"), w')
    /\ World.requests (World.trace w') = 5%nat
    /\ List.filter World.is_sleep (World.trace w')
       = [World.Sleep 10; World.Sleep 20; World.Sleep 30; World.Sleep 40;
          World.Sleep 50].
Proof. eexists. split; [vm_compute; reflexivity | split; reflexivity]. Qed.

(** ** More on the executor *)

Section ExecutorOutcomes.
Import World GitHubClient.

Variable cfg : Config.t.
Variable o : oracle.

(** Once the header has been read with the default 10, reading it again
    with the default 0 cannot fail. *)
Lemma remaining_header_parses_again (r : response) (z : Z) :
  PyStr.to_int (header_or r "X-RateLimit-Remaining" "10") = Some z ->
  exists z' : Z, PyStr.to_int (header_or r "X-RateLimit-Remaining" "0") = Some z'.
Proof.
  unfold header_or. destruct (headers r !! "X-RateLimit-Remaining") as [v|].
  - intros H. exists z. exact H.
  - intros _. exists 0. reflexivity.
Qed.

Lemma handle_rate_limit_no_raise (r : response) (w : World.t) (z : Z) (e : exn) :
  PyStr.to_int (header_or r "X-RateLimit-Remaining" "10") = Some z ->
  fst (_handle_rate_limit o r w) <> Raise e.
Proof.
  intros Hz. destruct (remaining_header_parses_again r z Hz) as [z' Hz'].
  unfold _handle_rate_limit, time. rewrite Hz'.
  destruct (negb _); [discriminate|].
  destruct (_ && _); [discriminate|].
  destruct (headers r !! _) as [s|]; [|discriminate].
  destruct (PyStr.truthy s); [|discriminate].
  destruct (PyStr.to_int s); [|discriminate].
  cbv beta iota. destruct (Qltb _ _); discriminate.
Qed.

(** What one turn can hand back. *)
Lemma attempt_body_outcome (url : string) (is_diff : bool)
    (max_retries attempt : Z) (c c' : GitHubClient.t) (w w' : World.t)
    (r : result (option response)) :
  attempt_body o url is_diff max_retries attempt c w = Return r c' w' ->
  match r with
  | Ok None => True
  | Ok (Some resp) =>
      net o (calls w) = Returned resp
      /\ World.ok resp = true
      /\ status_code resp <> 403 /\ status_code resp <> 429
  | Raise e =>
      e = ValueError
      /\ exists (resp : response) (v : string),
           net o (calls w) = Returned resp
           /\ headers resp !! "X-RateLimit-Remaining" = Some v
           /\ PyStr.to_int v = None
  end.
Proof.
  unfold attempt_body, http, time, backoff_or_give_up. cbv beta iota.
  destruct (net o (calls w)) as [resp| | |].
  - destruct (PyStr.to_int (header_or resp _ _)) as [z|] eqn:Hz.
    + destruct (_ || _) eqn:Hst.
      * pose proof (fun e => handle_rate_limit_no_raise resp
                      {| calls := S (calls w); ticks := S (ticks w);
                         draws := draws w;
                         trace := (trace w ++ [Get url is_diff])%list |} z e Hz)
          as Hno.
        destruct (_handle_rate_limit o resp _) as [[[sl|]|e] w3]; cbn [fst] in Hno.
        -- discriminate.
        -- destruct (_ <? _); [discriminate|]. intros [= <- _ _]. exact I.
        -- exfalso. apply (Hno e). reflexivity.
      * destruct (World.ok resp) eqn:Hok.
        -- intros [= <- _ _]. apply orb_false_elim in Hst as [H403 H429].
           repeat split; [exact Hok | lia | lia].
        -- intros [= <- _ _]. exact I.
    + intros [= <- _ _]. split; [reflexivity|].
      unfold header_or in Hz.
      destruct (headers resp !! "X-RateLimit-Remaining") as [v|] eqn:Hv.
      * exists resp, v. repeat split; assumption.
      * discriminate.
  - destruct (_ <? _); [discriminate|]. intros [= <- _ _]. exact I.
  - destruct (_ <? _); [discriminate|]. intros [= <- _ _]. exact I.
  - intros [= <- _ _]. exact I.
Qed.

Lemma attempts_outcome (url : string) (is_diff : bool) (max_retries : Z)
    (todo : list Z) (c : GitHubClient.t) (w : World.t) :
  match fst (fst (attempts o url is_diff max_retries todo c w)) with
  | Ok None => True
  | Ok (Some resp) =>
      (exists k : nat, net o k = Returned resp)
      /\ World.ok resp = true
      /\ status_code resp <> 403 /\ status_code resp <> 429
  | Raise e =>
      e = ValueError
      /\ exists (k : nat) (resp : response) (v : string),
           net o k = Returned resp
           /\ headers resp !! "X-RateLimit-Remaining" = Some v
           /\ PyStr.to_int v = None
  end.
Proof.
  revert c w; induction todo as [|attempt todo IH]; intros c w; [exact I|].
  cbn [attempts].
  destruct (attempt_body o url is_diff max_retries attempt c w)
    as [c1 w1 | r c1 w1] eqn:Hbody; [apply IH|].
  cbn [fst]. apply attempt_body_outcome in Hbody.
  destruct r as [[resp|]|e]; [|exact I|].
  - destruct Hbody as (Hnet & Hrest). split; [eauto | exact Hrest].
  - destruct Hbody as (He & resp & v & Hnet & Hv & Hint).
    split; [exact He|]. exists (calls w), resp, v. repeat split; assumption.
Qed.

(** X1. A response that [_make_request] returns is one the network
    returned, and it is never an error response: its status is outside
    400..599, so in particular neither 403 nor 429. *)
Theorem make_request_returns_no_error_response (url : string) (is_diff : bool)
    (max_retries : option Z) (c : GitHubClient.t) (w : World.t)
    (resp : response) :
  fst (fst (_make_request cfg o url is_diff max_retries c w)) = Ok (Some resp) ->
  (exists k : nat, net o k = Returned resp)
  /\ World.ok resp = true
  /\ ~ (400 <= status_code resp < 600).
Proof.
  unfold _make_request, time. cbv beta iota zeta. intros H.
  match type of H with
  | fst (fst (attempts o url is_diff ?n ?todo c ?w0)) = _ =>
      pose proof (attempts_outcome url is_diff n todo c w0) as Hout
  end.
  rewrite H in Hout. destruct Hout as (Hk & Hok & _ & _).
  split; [exact Hk|]. split; [exact Hok|].
  unfold World.ok in Hok. apply negb_true_iff in Hok.
  apply andb_false_iff in Hok. lia.
Qed.


(** X3. With a negative ceiling the loop has no turn: [_make_request]
    returns [None] without sending any request, and leaves the Rate-Limit
    State as it was. *)
Theorem make_request_negative_ceiling (url : string) (is_diff : bool) (n : Z)
    (c : GitHubClient.t) (w : World.t) (Hneg : n < 0) :
  fst (_make_request cfg o url is_diff (Some n) c w) = (Ok None, c)
  /\ requests (trace (snd (_make_request cfg o url is_diff (Some n) c w)))
     = requests (trace w).
Proof.
  unfold _make_request, time, range. cbv beta iota zeta.
  replace (Z.to_nat (n + 1)) with 0%nat by lia. cbn [List.seq List.map attempts].
  split; [reflexivity|]. cbn [snd].
  destruct (Qltb _ _); [|reflexivity].
  unfold sleep. cbn [trace]. rewrite requests_app. cbn. lia.
Qed.

(** X4. A first response that is neither an error nor a rate limit, with a
    readable quota header, is returned after that single request; the
    Rate-Limit State then holds the header value and the time read after the
    call. *)
Theorem make_request_first_success (url : string) (is_diff : bool) (n : Z)
    (c : GitHubClient.t) (w : World.t) (resp : response) (z : Z)
    (Hn : 0 <= n)
    (Hnet : net o (calls w) = Returned resp)
    (Hok : World.ok resp = true)
    (Hhdr : PyStr.to_int (header_or resp "X-RateLimit-Remaining" "10") = Some z) :
  fst (_make_request cfg o url is_diff (Some n) c w)
  = (Ok (Some resp),
     {| rate_limit_remaining := z;
        last_request_time := clock o (S (ticks w)) |})
  /\ requests (trace (snd (_make_request cfg o url is_diff (Some n) c w)))
     = S (requests (trace w)).
Proof.
  assert (Hst : (status_code resp =? 403) || (status_code resp =? 429) = false).
  { unfold World.ok in Hok. apply negb_true_iff, andb_false_iff in Hok.
    apply orb_false_intro; lia. }
  unfold _make_request, time, range. cbv beta iota zeta.
  replace (Z.to_nat (n + 1)) with (S (Z.to_nat n)) by lia.
  cbn [List.seq List.map attempts].
  unfold attempt_body, http, time. cbv beta iota.
  assert (Hcalls : forall b : bool,
             calls (if b then sleep (1 - (clock o (ticks w) - last_request_time c))
                                {| calls := calls w; ticks := S (ticks w);
                                   draws := draws w; trace := trace w |}
                    else {| calls := calls w; ticks := S (ticks w);
                            draws := draws w; trace := trace w |}) = calls w)
    by (intros []; reflexivity).
  rewrite Hcalls, Hnet, Hhdr, Hst, Hok. cbn [fst snd].
  split.
  - do 2 f_equal. destruct (Qltb _ _); reflexivity.
  - cbn [trace]. rewrite requests_app.
    destruct (Qltb _ _); cbn [trace sleep]; rewrite ?requests_app; cbn; lia.
Qed.

End ExecutorOutcomes.

Lemma make_request_returns_no_error_response_witness :
  (exists k : nat,
      World.net (oracle_always (World.Returned (json_response listing_with_number_seven))) k
      = World.Returned (json_response listing_with_number_seven))
  /\ World.ok (json_response listing_with_number_seven) = true
  /\ ~ (400 <= World.status_code (json_response listing_with_number_seven) < 600).
Proof.
  apply (make_request_returns_no_error_response sample_config
           (oracle_always (World.Returned (json_response listing_with_number_seven)))
           "https://api.github.com/x" false None GitHubClient.init World.initial).
  vm_compute. reflexivity.
Defined.


Lemma make_request_negative_ceiling_witness :
  fst (GitHubClient._make_request sample_config (oracle_always World.Timeout)
         "https://api.github.com/x" false (Some (-1)) GitHubClient.init
         World.initial) = (Ok None, GitHubClient.init)
  /\ World.requests
       (World.trace
          (snd (GitHubClient._make_request sample_config
                  (oracle_always World.Timeout) "https://api.github.com/x" false
                  (Some (-1)) GitHubClient.init World.initial)))
     = World.requests (World.trace World.initial).
Proof.
  apply (make_request_negative_ceiling sample_config (oracle_always World.Timeout)
           "https://api.github.com/x" false (-1) GitHubClient.init World.initial).
  lia.
Defined.

Lemma make_request_first_success_witness :
  fst (GitHubClient._make_request sample_config
         (oracle_always (World.Returned (json_response listing_with_number_seven)))
         "https://api.github.com/x" false (Some 0) GitHubClient.init
         World.initial)
  = (Ok (Some (json_response listing_with_number_seven)),
     {| GitHubClient.rate_limit_remaining := 59;
        GitHubClient.last_request_time := 100 |}).
Proof.
  apply (make_request_first_success sample_config
           (oracle_always (World.Returned (json_response listing_with_number_seven)))
           "https://api.github.com/x" false 0 GitHubClient.init World.initial
           (json_response listing_with_number_seven) 59).
  - lia.
  - reflexivity.
  - reflexivity.
  - vm_compute. reflexivity.
Defined.

(** ** The backoff schedule *)





(** ** More on the gateway *)

Section GatewayShapes.
Import World GitHubClient.

Variable cfg : Config.t.
Variable o : oracle.

Lemma startswith_first_char (a : ascii) (p l : string) :
  PyStr.startswith l (String a p) = true ->
  PyStr.startswith l (String a "") = true.
Proof.
  unfold PyStr.startswith. destruct l as [|b l]; cbn; [discriminate|].
  destruct (ascii_dec a b); [|discriminate]. intros _. destruct l; reflexivity.
Qed.

(** The five prefixes of the acceptance test come down to three. *)
Lemma has_diff_marker_three (l : string) :
  has_diff_marker l = true ->
  PyStr.startswith l "+" = true \/ PyStr.startswith l "-" = true
  \/ PyStr.startswith l "@@" = true.
Proof.
  unfold has_diff_marker. cbn [existsb].
  rewrite !orb_true_iff. intros [H | [H | [H | [H | [H | H]]]]]; auto.
  - left. exact (startswith_first_char _ _ _ H).
  - right; left. exact (startswith_first_char _ _ _ H).
  - discriminate.
Qed.

(** A response that comes out of [_make_request] came from the network. *)
Lemma make_request_response (url : string) (is_diff : bool)
    (max_retries : option Z) (c : GitHubClient.t) (w : World.t)
    (resp : response) :
  fst (fst (_make_request cfg o url is_diff max_retries c w)) = Ok (Some resp) ->
  exists k : nat, net o k = Returned resp.
Proof.
  unfold _make_request, time. cbv beta iota zeta.
  apply attempts_response.
Qed.

(** X6. A diff that [get_pull_request_diff] returns is the body of a
    response of the network, unchanged; it is not blank, and one of its
    first ten lines starts with [+], [-] or [@@]. *)
Theorem pull_request_diff_is_recognised (pr_number : Z) (c : GitHubClient.t)
    (w : World.t) (diff_content : string) :
  fst (fst (get_pull_request_diff cfg o pr_number c w)) = Ok (Some diff_content) ->
  (exists (k : nat) (resp : response),
      net o k = Returned resp /\ text resp = diff_content)
  /\ PyStr.strip diff_content <> ""
  /\ exists line : string,
       In line (List.firstn 10 (PyStr.split diff_content PyStr.nl))
       /\ (PyStr.startswith line "+" = true \/ PyStr.startswith line "-" = true
           \/ PyStr.startswith line "@@" = true).
Proof.
  unfold get_pull_request_diff.
  destruct (_make_request _ _ _ _ _ _ _) as [[[[resp|]|e] c1] w1] eqn:Hreq;
    cbn [fst]; try discriminate.
  destruct (negb (World.ok resp)); cbn [fst]; [discriminate|].
  destruct (_ || _) eqn:Hblank; cbn [fst]; [discriminate|].
  destruct (negb (existsb _ _)) eqn:Hmark; cbn [fst]; [discriminate|].
  intros [= <-].
  apply orb_false_elim in Hblank as [_ Hstrip].
  apply negb_false_iff, existsb_exists in Hmark as (line & Hin & Hline).
  split; [|split].
  - assert (Hresp : fst (fst (_make_request cfg o
                                (base_url +:+ "/repos/"
                                 +:+ Config.github_repository cfg +:+ "/pulls/"
                                 +:+ PyStr.of_Z pr_number)
                                true None c w)) = Ok (Some resp))
      by (rewrite Hreq; reflexivity).
    apply make_request_response in Hresp as [k Hk]. exists k, resp. auto.
  - intros Heq. rewrite Heq in Hstrip. discriminate.
  - exists line. split; [exact Hin | apply has_diff_marker_three; exact Hline].
Qed.


(** The shape of a listed Summary. *)
Lemma summaries_shape (prs : list pyval) (d : list (string * pyval)) :
  In d (summaries prs) ->
  List.map fst d = ["number"; "title"; "body"; "html_url"; "user"]
  /\ Py.truthy (Py.dict_get d "title") = true
  /\ Py.dict_get d "body" <> PyNone.
Proof.
  induction prs as [|pr prs IH]; [intros []|].
  destruct pr as [| | | | | |pr]; cbn [summaries]; try exact IH.
  change (Py.dict_get (("number", Py.dict_get pr "number") :: _) "number")
    with (Py.dict_get pr "number").
  set (entry := [("number", Py.dict_get pr "number"); _; _; _; _]).
  assert (Hshape : List.map fst entry
                   = ["number"; "title"; "body"; "html_url"; "user"]
                   /\ Py.truthy (Py.dict_get entry "title") = true
                   /\ Py.dict_get entry "body" <> PyNone).
  { split; [reflexivity|]. split.
    - change (Py.dict_get entry "title")
        with (Py.or_else (Py.dict_get pr "title") (PyStr "Untitled")).
      unfold Py.or_else.
      destruct (Py.truthy (Py.dict_get pr "title")) eqn:E; [exact E | reflexivity].
    - change (Py.dict_get entry "body")
        with (Py.or_else (Py.dict_get pr "body") (PyStr "")).
      unfold Py.or_else.
      destruct (Py.truthy (Py.dict_get pr "body")) eqn:E; [|discriminate].
      intros Hnone. rewrite Hnone in E. discriminate. }
  destruct (Py.dict_get pr "number"); try exact IH;
    (destruct (negb _); [exact IH|];
     intros [<- | Hin]; [exact Hshape | exact (IH Hin)]).
Qed.


(** X8. Every Summary of the list returned by [get_open_pull_requests] has
    the five fields [number], [title], [body], [html_url] and [user], in
    this order; its title is never empty (it defaults to [Untitled]) and its
    body is never [None]. *)
Theorem summaries_are_well_shaped (c : GitHubClient.t) (w : World.t)
    (prs : list (list (string * pyval))) (d : list (string * pyval)) :
  fst (fst (get_open_pull_requests cfg o c w)) = Ok prs ->
  In d prs ->
  List.map fst d = ["number"; "title"; "body"; "html_url"; "user"]
  /\ Py.truthy (Py.dict_get d "title") = true
  /\ Py.dict_get d "body" <> PyNone.
Proof.
  unfold get_open_pull_requests.
  destruct (_make_request _ _ _ _ _ _ _) as [[[[resp|]|e] c1] w1];
    cbn [fst]; try discriminate.
  - destruct (negb _); cbn [fst]; [intros [= <-] []|].
    destruct (json resp) as [[| | | | |payload|]|]; cbn [fst];
      try (intros [= <-] []).
    intros [= <-]. apply summaries_shape.
  - intros [= <-] [].
Qed.

(** What [get_pull_request_details] builds from the payload it received. *)
Lemma details_of_payload (pr_number : Z) (c : GitHubClient.t) (w : World.t)
    (d : list (string * pyval)) :
  fst (fst (get_pull_request_details cfg o pr_number c w)) = Ok (Some d) ->
  exists (k : nat) (resp : response) (pr_data : list (string * pyval)),
    net o k = Returned resp
    /\ json resp = Some (PyDict pr_data)
    /\ List.map fst d
       = ["number"; "title"; "body"; "html_url"; "user"; "state";
          "created_at"; "updated_at"]
    /\ Py.dict_get d "number" = Py.dict_get pr_data "number"
    /\ Py.dict_get d "user" = author_of pr_data.
Proof.
  unfold get_pull_request_details.
  destruct (_make_request _ _ _ _ _ _ _) as [[[[resp|]|e] c1] w1] eqn:Hreq;
    cbn [fst]; try discriminate.
  destruct (negb _); cbn [fst]; [discriminate|].
  destruct (json resp) as [[| | | | | |pr_data]|] eqn:Hjson; cbn [fst];
    try discriminate.
  intros [= <-].
  assert (Hresp : fst (fst (_make_request cfg o
                              (base_url +:+ "/repos/"
                               +:+ Config.github_repository cfg +:+ "/pulls/"
                               +:+ PyStr.of_Z pr_number)
                              false None c w)) = Ok (Some resp))
    by (rewrite Hreq; reflexivity).
  apply make_request_response in Hresp as [k Hk].
  exists k, resp, pr_data. repeat split; assumption.
Qed.

(** X9. The author of a Detail is [None], not [unknown], when the payload
    has no [user] (or a null or empty one); it is the [login] of the user
    object when there is one, and [unknown] only when [user] is a non-empty
    value that is not an object. *)
Theorem detail_author_of_payload (pr_number : Z) (c : GitHubClient.t)
    (w : World.t) (d : list (string * pyval)) :
  fst (fst (get_pull_request_details cfg o pr_number c w)) = Ok (Some d) ->
  exists (k : nat) (resp : response) (pr_data : list (string * pyval)),
    net o k = Returned resp
    /\ json resp = Some (PyDict pr_data)
    /\ (Py.truthy (Py.dict_get pr_data "user") = false ->
        Py.dict_get d "user" = PyNone)
    /\ (forall user_obj : list (string * pyval),
          Py.dict_get pr_data "user" = PyDict user_obj ->
          Py.dict_get d "user" = Py.dict_get user_obj "login")
    /\ (Py.truthy (Py.dict_get pr_data "user") = true ->
        (forall user_obj, Py.dict_get pr_data "user" <> PyDict user_obj) ->
        Py.dict_get d "user" = PyStr "unknown").
Proof.
  intros Hd. destruct (details_of_payload pr_number c w d Hd)
    as (k & resp & pr_data & Hk & Hjson & _ & _ & Huser).
  exists k, resp, pr_data. split; [exact Hk|]. split; [exact Hjson|].
  rewrite Huser. unfold author_of, Py.or_else.
  split; [|split].
  - intros Hfalse. rewrite Hfalse. reflexivity.
  - intros user_obj Hobj. rewrite Hobj. destruct user_obj; reflexivity.
  - intros Htrue Hnot. rewrite Htrue.
    destruct (Py.dict_get pr_data "user") as [| | | | | |u]; try reflexivity.
    exfalso. exact (Hnot u eq_refl).
Qed.

(** X10. A Detail always has the four fields [validate_pr_data] requires, so
    the orchestrator accepts a Detail exactly when its number is a positive
    integer. *)
Theorem detail_validation_is_number_check (pr_number : Z)
    (c : GitHubClient.t) (w : World.t) (d : list (string * pyval)) :
  fst (fst (get_pull_request_details cfg o pr_number c w)) = Ok (Some d) ->
  PRReviewer.validate_pr_data d = is_positive_int (Py.dict_get d "number").
Proof.
  unfold get_pull_request_details.
  destruct (_make_request _ _ _ _ _ _ _) as [[[[resp|]|e] c1] w1];
    cbn [fst]; try discriminate.
  destruct (negb _); cbn [fst]; [discriminate|].
  destruct (json resp) as [[| | | | | |pr_data]|]; cbn [fst]; try discriminate.
  intros [= <-].
  unfold PRReviewer.validate_pr_data, is_positive_int.
  change (PRReviewer.has_required_fields _) with true. cbn [negb].
  change (Py.dict_get (("number", Py.dict_get pr_data "number") :: _) "number")
    with (Py.dict_get pr_data "number").
  destruct (Py.int_value _) as [n|]; [|reflexivity].
  destruct (n <=? 0) eqn:E1; destruct (0 <? n) eqn:E2; try reflexivity; lia.
Qed.

End GatewayShapes.

Lemma pull_request_diff_is_recognised_witness :
  (exists (k : nat) (resp : World.response),
      World.net (oracle_always (World.Returned diff_response)) k
      = World.Returned resp
      /\ World.text resp = World.text diff_response)
  /\ PyStr.strip (World.text diff_response) <> ""
  /\ exists line : string,
       In line (List.firstn 10 (PyStr.split (World.text diff_response) PyStr.nl))
       /\ (PyStr.startswith line "+" = true \/ PyStr.startswith line "-" = true
           \/ PyStr.startswith line "@@" = true).
Proof.
  apply (pull_request_diff_is_recognised sample_config
           (oracle_always (World.Returned diff_response)) 7
           GitHubClient.init World.initial).
  vm_compute. reflexivity.
Defined.


Lemma summaries_are_well_shaped_witness :
  exists d : list (string * pyval),
    fst (fst (GitHubClient.get_open_pull_requests sample_config
                (oracle_always (World.Returned (json_response listing_with_number_seven)))
                GitHubClient.init World.initial)) = Ok [d]
    /\ List.map fst d = ["number"; "title"; "body"; "html_url"; "user"]
    /\ Py.truthy (Py.dict_get d "title") = true
    /\ Py.dict_get d "body" <> PyNone.
Proof.
  eexists. split; [vm_compute; reflexivity|].
  eapply (summaries_are_well_shaped sample_config
            (oracle_always (World.Returned (json_response listing_with_number_seven)))
            GitHubClient.init World.initial);
    [vm_compute; reflexivity | left; reflexivity].
Defined.

Lemma detail_author_of_payload_witness :
  exists d : list (string * pyval),
    fst (fst (GitHubClient.get_pull_request_details sample_config
                (oracle_always (World.Returned (json_response detail_without_user)))
                7 GitHubClient.init World.initial)) = Ok (Some d)
    /\ Py.dict_get d "user" = PyNone.
Proof.
  eexists. split; [vm_compute; reflexivity|].
  match goal with
  | |- Py.dict_get ?d _ = _ =>
      destruct (detail_author_of_payload sample_config
                  (oracle_always (World.Returned (json_response detail_without_user)))
                  7 GitHubClient.init World.initial d)
        as (k & resp & pr_data & Hnet & Hjson & Hnone & _);
        [vm_compute; reflexivity|]
  end.
  apply Hnone. cbn in Hnet. injection Hnet as <-.
  cbn in Hjson. injection Hjson as <-. reflexivity.
Defined.

Lemma detail_validation_is_number_check_witness :
  exists d : list (string * pyval),
    fst (fst (GitHubClient.get_pull_request_details sample_config
                (oracle_always (World.Returned (json_response detail_without_user)))
                7 GitHubClient.init World.initial)) = Ok (Some d)
    /\ PRReviewer.validate_pr_data d = is_positive_int (Py.dict_get d "number").
Proof.
  eexists. split; [vm_compute; reflexivity|].
  apply (detail_validation_is_number_check sample_config
           (oracle_always (World.Returned (json_response detail_without_user)))
           7 GitHubClient.init World.initial).
  vm_compute. reflexivity.
Defined.

(** ** More on the configuration *)

Section Stripping.

Variable p : ascii -> bool.

Lemma lstrip_by_idem (s : string) :
  PyStr.lstrip_by p (PyStr.lstrip_by p s) = PyStr.lstrip_by p s.
Proof.
  induction s as [|a s IH]; [reflexivity|]. cbn.
  destruct (p a) eqn:E; [exact IH|]. cbn. rewrite E. reflexivity.
Qed.

Lemma rstrip_by_idem (s : string) :
  PyStr.rstrip_by p (PyStr.rstrip_by p s) = PyStr.rstrip_by p s.
Proof.
  induction s as [|a s IH]; [reflexivity|]. cbn.
  destruct (PyStr.rstrip_by p s) as [|b r] eqn:Hr.
  - destruct (p a) eqn:E; [reflexivity|]. cbn. rewrite E. reflexivity.
  - cbn [PyStr.rstrip_by]. cbn [PyStr.rstrip_by] in IH. rewrite IH. reflexivity.
Qed.

(** Stripping on the right keeps a first character that is not stripped. *)
Lemma rstrip_by_head (a : ascii) (s : string) :
  p a = false -> exists r, PyStr.rstrip_by p (String a s) = String a r.
Proof.
  intros E. cbn. destruct (PyStr.rstrip_by p s) as [|b r].
  - rewrite E. eauto.
  - eauto.
Qed.

Lemma lstrip_by_head (s : string) :
  PyStr.lstrip_by p s = ""
  \/ exists a r, PyStr.lstrip_by p s = String a r /\ p a = false.
Proof.
  induction s as [|a s IH]; [left; reflexivity|]. cbn.
  destruct (p a) eqn:E; [exact IH|]. right. eauto.
Qed.

Lemma lstrip_rstrip_lstrip (s : string) :
  PyStr.lstrip_by p (PyStr.rstrip_by p (PyStr.lstrip_by p s))
  = PyStr.rstrip_by p (PyStr.lstrip_by p s).
Proof.
  destruct (lstrip_by_head s) as [-> | (a & r & -> & E)]; [reflexivity|].
  destruct (rstrip_by_head a r E) as [r' ->]. cbn. rewrite E. reflexivity.
Qed.

End Stripping.

(** [strip] is idempotent. *)
Lemma strip_idem (s : string) : PyStr.strip (PyStr.strip s) = PyStr.strip s.
Proof.
  unfold PyStr.strip. rewrite lstrip_rstrip_lstrip, rstrip_by_idem. reflexivity.
Qed.

Lemma truthy_nonempty (s : string) : PyStr.truthy s = true <-> s <> "".
Proof. destruct s; cbn; split; congruence. Qed.

(** X11. A repository given as [owner/repo] (a text with a slash that does
    not start with [http]) is returned as it is, stripped of surrounding
    whitespace; parsing the result again changes nothing. *)
Theorem parse_repository_direct_format (repo_input : string)
    (Hslash : PyStr.mem "/" (PyStr.strip repo_input) = true)
    (Hhttp : PyStr.startswith (PyStr.strip repo_input) "http" = false) :
  Config._parse_repository repo_input = Ok (PyStr.strip repo_input)
  /\ Config._parse_repository (PyStr.strip repo_input)
     = Ok (PyStr.strip repo_input).
Proof.
  assert (Hne : PyStr.truthy (PyStr.strip repo_input) = true).
  { destruct (PyStr.strip repo_input); [discriminate | reflexivity]. }
  assert (Hin : PyStr.truthy repo_input = true).
  { destruct repo_input; [discriminate | reflexivity]. }
  unfold Config._parse_repository.
  rewrite strip_idem, Hne, Hin, Hslash, Hhttp. split; reflexivity.
Qed.

Lemma parse_repository_direct_format_witness :
  Config._parse_repository "  acme/widgets " = Ok (PyStr.strip "  acme/widgets ")
  /\ Config._parse_repository (PyStr.strip "  acme/widgets ")
     = Ok (PyStr.strip "  acme/widgets ").
Proof.
  apply (parse_repository_direct_format "  acme/widgets "); reflexivity.
Defined.

(** X12. A blank repository input, and one that has no slash and does not
    start with [http], are refused with [ValueError]. *)
Theorem parse_repository_rejects (repo_input : string) :
  (PyStr.strip repo_input = "" ->
   Config._parse_repository repo_input = Raise ValueError)
  /\ (PyStr.mem "/" (PyStr.strip repo_input) = false ->
      PyStr.startswith (PyStr.strip repo_input) "http" = false ->
      Config._parse_repository repo_input = Raise ValueError).
Proof.
  unfold Config._parse_repository. split.
  - intros ->. rewrite orb_true_r. reflexivity.
  - intros Hslash Hhttp. rewrite Hslash, Hhttp.
    destruct (_ || _); reflexivity.
Qed.

Lemma parse_repository_rejects_witness :
  Config._parse_repository "   " = Raise ValueError
  /\ Config._parse_repository "widgets" = Raise ValueError.
Proof.
  destruct (parse_repository_rejects "   ") as [Hblank _].
  destruct (parse_repository_rejects "widgets") as [_ Hbare].
  split; [apply Hblank | apply Hbare]; reflexivity.
Defined.

(** *** The groups of the URL pattern *)

Lemma match_here_group (chars : string) (rest : list Re.atom) (s : string)
    (caps : list string) (used : nat) :
  Re.match_here (Re.GroupNoneOfPlus chars :: rest) s caps used
  = group_loop chars rest caps s "" used.
Proof. reflexivity. Qed.

Lemma append_cons (a : ascii) (s t : string) :
  String a s +:+ t = String a (s +:+ t).
Proof. reflexivity. Qed.

Lemma append_assoc_cons (a : ascii) (s t : string) :
  s +:+ String a t = (s +:+ String a "") +:+ t.
Proof.
  induction s as [|c s IH]; [reflexivity|].
  rewrite !append_cons. f_equal. exact IH.
Qed.

Lemma mem_app (a : ascii) (s t : string) :
  PyStr.mem a (s +:+ t) = PyStr.mem a s || PyStr.mem a t.
Proof.
  induction s as [|b s IH]; [reflexivity|].
  rewrite append_cons. cbn [PyStr.mem]. rewrite IH. apply orb_assoc.
Qed.

(** A match of a capturing [[^chars]+] adds one group, which is not empty
    and holds none of [chars], and goes on with the rest of the pattern. *)
Lemma group_loop_spec (chars : string) (rest : list Re.atom)
    (caps : list string) (s : string) :
  forall (taken : string) (used : nat) (r : list string * nat),
    group_loop chars rest caps s taken used = Some r ->
    exists (g s' : string) (used' : nat),
      g <> ""
      /\ (forall a, PyStr.mem a chars = true -> PyStr.mem a g = true ->
                    PyStr.mem a taken = true)
      /\ Re.match_here rest s' (caps ++ [taken +:+ g]) used' = Some r.
Proof.
  induction s as [|a s IH]; intros taken used r; cbn; [discriminate|].
  destruct (PyStr.mem a chars) eqn:Ha; [discriminate|].
  destruct (group_loop chars rest caps s (taken +:+ String a "") (S used))
    as [r'|] eqn:Hloop.
  - intros [= <-]. apply IH in Hloop as (g & s' & used' & Hg & Hfree & Hrest).
    exists (String a g), s', used'. split; [discriminate|]. split.
    + intros b Hb Hin. cbn in Hin. apply orb_true_iff in Hin as [Hba | Hin].
      * apply Ascii.eqb_eq in Hba. subst b. congruence.
      * specialize (Hfree b Hb Hin). rewrite mem_app in Hfree.
        apply orb_true_iff in Hfree as [Hf | Hf]; [exact Hf|].
        cbn in Hf. rewrite orb_false_r in Hf. apply Ascii.eqb_eq in Hf.
        subst b. congruence.
    + rewrite append_assoc_cons. exact Hrest.
  - intros Hrest. exists (String a ""), s, (S used).
    split; [discriminate|]. split; [|exact Hrest].
    intros b Hb Hin. cbn in Hin. rewrite orb_false_r in Hin.
    apply Ascii.eqb_eq in Hin. subst b. congruence.
Qed.

Lemma match_here_group_spec (chars : string) (rest : list Re.atom) (s : string)
    (caps : list string) (used : nat) (r : list string * nat) :
  Re.match_here (Re.GroupNoneOfPlus chars :: rest) s caps used = Some r ->
  exists (g s' : string) (used' : nat),
    g <> ""
    /\ (forall a, PyStr.mem a chars = true -> PyStr.mem a g = false)
    /\ Re.match_here rest s' (caps ++ [g]) used' = Some r.
Proof.
  rewrite match_here_group. intros H.
  apply group_loop_spec in H as (g & s' & used' & Hg & Hfree & Hrest).
  exists g, s', used'. split; [exact Hg|]. split; [|exact Hrest].
  intros a Ha. destruct (PyStr.mem a g) eqn:E; [|reflexivity].
  specialize (Hfree a Ha E). discriminate.
Qed.

(** The tail [/?$] of the pattern adds no group. *)
Lemma match_here_tail (s : string) (caps : list string) (used : nat)
    (r : list string * nat) :
  Re.match_here [Re.Opt "/"; Re.EndAnchor] s caps used = Some r ->
  fst r = caps.
Proof.
  cbn. destruct s as [|a s].
  - cbn. intros [= <-]. reflexivity.
  - destruct (Ascii.eqb a "/").
    + destruct (Re.at_end s); [intros [= <-]; reflexivity|].
      destruct (Re.at_end (String a s)); [intros [= <-]; reflexivity | discriminate].
    + destruct (Re.at_end (String a s)); [intros [= <-]; reflexivity | discriminate].
Qed.

Lemma match_here_lit (p : string) (rest : list Re.atom) (s : string)
    (caps : list string) (used : nat) :
  Re.match_here (Re.Lit p :: rest) s caps used
  = match Re.eat p s with
    | Some s' => Re.match_here rest s' caps (used + String.length p)
    | None => None
    end.
Proof. reflexivity. Qed.

Lemma match_here_one_of (chars : string) (rest : list Re.atom) (s : string)
    (caps : list string) (used : nat) :
  Re.match_here (Re.OneOf chars :: rest) s caps used
  = match s with
    | String a s' =>
        if PyStr.mem a chars then Re.match_here rest s' caps (S used) else None
    | EmptyString => None
    end.
Proof. reflexivity. Qed.

Lemma github_url_groups (s : string) (r : list string * nat) :
  Re.match_here Config.github_url_re s [] 0 = Some r ->
  exists owner repo : string,
    fst r = [owner; repo]
    /\ owner <> "" /\ repo <> ""
    /\ PyStr.mem "/" owner = false /\ PyStr.mem "/" repo = false.
Proof.
  unfold Config.github_url_re. rewrite match_here_lit.
  destruct (Re.eat "github.com" s) as [s1|]; [|discriminate].
  rewrite match_here_one_of.
  destruct s1 as [|a s1]; [discriminate|].
  destruct (PyStr.mem a "/:"); [|discriminate].
  intros H. apply match_here_group_spec in H
    as (owner & s2 & u2 & Howner & Hfree1 & H).
  rewrite match_here_lit in H.
  destruct (Re.eat "/" s2) as [s3|]; [|discriminate].
  apply match_here_group_spec in H as (repo & s4 & u4 & Hrepo & Hfree2 & H).
  apply match_here_tail in H.
  exists owner, repo. split; [exact H|].
  repeat split; [exact Howner | exact Hrepo | apply Hfree1 | apply Hfree2];
    reflexivity.
Qed.

Lemma search_from_groups (s : string) (start : nat)
    (found : nat * nat * list string) :
  Re.search_from Config.github_url_re s start = Some found ->
  exists owner repo : string,
    snd found = [owner; repo]
    /\ owner <> "" /\ repo <> ""
    /\ PyStr.mem "/" owner = false /\ PyStr.mem "/" repo = false.
Proof.
  revert start; induction s as [|a s IH]; intros start; cbn [Re.search_from].
  - destruct (Re.match_here Config.github_url_re "" [] 0) as [[caps used]|] eqn:Hm;
      [|discriminate].
    intros [= <-]. apply github_url_groups in Hm. exact Hm.
  - destruct (Re.match_here Config.github_url_re (String a s) [] 0)
      as [[caps used]|] eqn:Hm.
    + intros [= <-]. apply github_url_groups in Hm. exact Hm.
    + apply IH.
Qed.

(** X13. When a repository given as a URL (a text that starts with [http])
    is accepted, the result is [owner/repo] with an owner and a repository
    name that are not empty and hold no slash: it has exactly one slash. *)
Theorem parse_repository_url_shape (repo_input result : string)
    (Hhttp : PyStr.startswith (PyStr.strip repo_input) "http" = true) :
  Config._parse_repository repo_input = Ok result ->
  exists owner repo : string,
    result = owner +:+ "/" +:+ repo
    /\ owner <> "" /\ repo <> ""
    /\ PyStr.mem "/" owner = false /\ PyStr.mem "/" repo = false.
Proof.
  unfold Config._parse_repository. rewrite Hhttp.
  destruct (_ || _); [discriminate|].
  rewrite andb_false_r. unfold Re.search.
  destruct (Re.search_from _ _ _) as [[[start used] caps]|] eqn:Hs; [|discriminate].
  apply search_from_groups in Hs as (owner & repo & Hcaps & Hrest).
  cbn [snd] in Hcaps. subst caps. intros [= <-].
  exists owner, repo. split; [reflexivity | exact Hrest].
Qed.

Lemma parse_repository_url_shape_witness :
  exists owner repo : string,
    "acme/widgets" = owner +:+ "/" +:+ repo
    /\ owner <> "" /\ repo <> ""
    /\ PyStr.mem "/" owner = false /\ PyStr.mem "/" repo = false.
Proof.
  apply (parse_repository_url_shape "https://github.com/acme/widgets/"
           "acme/widgets"); reflexivity.
Defined.

(** *** Required variables and the constructor *)

Lemma get_required_ok (env : gmap string string) (key value : string) :
  Config._get_required env key = Ok value ->
  value <> "" /\ PyStr.strip value = value
  /\ exists raw : string, env !! key = Some raw /\ value = PyStr.strip raw.
Proof.
  unfold Config._get_required, Config.getenv.
  destruct (env !! key) as [raw|]; [|discriminate].
  destruct (negb (PyStr.truthy raw)); [discriminate|]. cbn [orb].
  destruct (PyStr.truthy (PyStr.strip raw)) eqn:Hne; [|discriminate].
  intros [= <-]. split; [apply truthy_nonempty; exact Hne|].
  split; [apply strip_idem | eauto].
Qed.

(** X14. A required variable that is missing or blank raises [ValueError];
    otherwise [_get_required] returns its value stripped, which is not empty
    and has no surrounding whitespace left. *)
Theorem get_required_is_stripped (env : gmap string string) (key : string) :
  (env !! key = None -> Config._get_required env key = Raise ValueError)
  /\ (forall raw : string,
        env !! key = Some raw -> PyStr.strip raw = "" ->
        Config._get_required env key = Raise ValueError)
  /\ (forall value : string,
        Config._get_required env key = Ok value ->
        value <> "" /\ PyStr.strip value = value
        /\ exists raw : string, env !! key = Some raw /\ value = PyStr.strip raw).
Proof.
  split; [|split].
  - unfold Config._get_required, Config.getenv. intros ->. reflexivity.
  - unfold Config._get_required, Config.getenv.
    intros raw -> Hblank. rewrite Hblank, orb_true_r. reflexivity.
  - intros value. apply get_required_ok.
Qed.

Lemma get_required_is_stripped_witness :
  "hf_secret" <> "" /\ PyStr.strip "hf_secret" = "hf_secret"
  /\ exists raw : string,
       sample_env !! "HF_API_KEY" = Some raw /\ "hf_secret" = PyStr.strip raw.
Proof.
  destruct (get_required_is_stripped sample_env "HF_API_KEY") as (_ & _ & H).
  apply H. vm_compute. reflexivity.
Defined.

Lemma getenv_int_default (env : gmap string string) (key default : string)
    (n d : Z) :
  PyStr.to_int default = Some d ->
  Config.getenv_int env key default = Ok n ->
  env !! key = None -> n = d.
Proof.
  unfold Config.getenv_int, Config.getenv_or. intros Hd Hn Hnone.
  rewrite Hnone, Hd in Hn. congruence.
Qed.

(** X15. A configuration that [Config.__init__] builds has a positive diff
    budget, a positive timeout, a retry ceiling that is not negative, a key
    and a token that are not empty, and a model name that matches the
    pattern; a numeric setting absent from the environment has its default:
    4000, 30 and 5. *)
Theorem config_init_invariants (env : gmap string string)
    (self : Config.settings) :
  Config.__init__ env = Ok self ->
  0 < Config.max_diff_length (Config.core self)
  /\ 0 < Config.request_timeout (Config.core self)
  /\ 0 <= Config.max_retries (Config.core self)
  /\ Config.huggingface_api_key self <> ""
  /\ Config.github_token self <> ""
  /\ Regex.py_match Config.MODEL_NAME_REGEX (Config.huggingface_model self) = true
  /\ (env !! "MAX_DIFF_LENGTH" = None ->
      Config.max_diff_length (Config.core self) = 4000)
  /\ (env !! "REQUEST_TIMEOUT" = None ->
      Config.request_timeout (Config.core self) = 30)
  /\ (env !! "MAX_RETRIES" = None -> Config.max_retries (Config.core self) = 5).
Proof.
  unfold Config.__init__.
  destruct (Config._get_required env "HF_API_KEY") as [key|] eqn:Hkey;
    [|discriminate].
  destruct (Config._get_required env "GITHUB_TOKEN") as [token|] eqn:Htoken;
    [|discriminate].
  destruct (Config._get_required env "GITHUB_REPOSITORY") as [repo_input|];
    [|discriminate].
  destruct (Config._parse_repository repo_input) as [repo|]; [|discriminate].
  destruct (Config.getenv_int env "MAX_DIFF_LENGTH" "4000") as [len|] eqn:Hlen;
    [|discriminate].
  destruct (Config.getenv_int env "REQUEST_TIMEOUT" "30") as [timeout|] eqn:Htime;
    [|discriminate].
  destruct (Config.getenv_int env "MAX_RETRIES" "5") as [retries|] eqn:Hretries;
    [|discriminate].
  unfold Config._validate_config. cbn [Config.core Config.huggingface_model
    Config.max_diff_length Config.request_timeout Config.max_retries].
  destruct (Regex.py_match _ _) eqn:Hmodel; cbn [negb]; [|discriminate].
  destruct (len <=? 0) eqn:E1; [discriminate|].
  destruct (timeout <=? 0) eqn:E2; [discriminate|].
  destruct (retries <? 0) eqn:E3; [discriminate|].
  intros [= <-]. cbn.
  repeat split; try lia.
  - exact (proj1 (get_required_ok env _ key Hkey)).
  - exact (proj1 (get_required_ok env _ token Htoken)).
  - exact Hmodel.
  - exact (getenv_int_default env "MAX_DIFF_LENGTH" "4000" len 4000 eq_refl Hlen).
  - exact (getenv_int_default env "REQUEST_TIMEOUT" "30" timeout 30 eq_refl Htime).
  - exact (getenv_int_default env "MAX_RETRIES" "5" retries 5 eq_refl Hretries).
Qed.

Lemma config_init_invariants_witness :
  exists self : Config.settings,
    Config.__init__ sample_env = Ok self
    /\ 0 < Config.max_diff_length (Config.core self)
    /\ 0 < Config.request_timeout (Config.core self)
    /\ 0 <= Config.max_retries (Config.core self).
Proof.
  eexists. split; [vm_compute; reflexivity|].
  match goal with
  | |- 0 < Config.max_diff_length (Config.core ?self) /\ _ =>
      destruct (config_init_invariants sample_env self)
        as (H1 & H2 & H3 & _); [vm_compute; reflexivity|]
  end.
  repeat split; assumption.
Defined.

(** *** The model name pattern *)

Lemma all_chars_cons (p : ascii -> bool) (a : ascii) (s : string) :
  all_chars p (String a s) = p a && all_chars p s.
Proof. reflexivity. Qed.

(** [[class]+] followed by [k] succeeds when the text splits into a run of
    the class that is not empty and a rest that [k] accepts. *)
Lemma plus_chars_spec (p : ascii -> bool) (k : string -> bool) (s : string) :
  Regex.plus_chars p k s = true
  <-> exists pre rest : string,
        s = pre +:+ rest /\ pre <> "" /\ all_chars p pre = true
        /\ k rest = true.
Proof.
  induction s as [|a s IH]; cbn [Regex.plus_chars].
  - split; [discriminate|].
    intros (pre & rest & Hs & Hpre & _). destruct pre; [congruence | discriminate].
  - rewrite andb_true_iff, orb_true_iff, IH. split.
    + intros [Ha [(pre & rest & -> & Hpre & Hall & Hk) | Hk]].
      * exists (String a pre), rest. rewrite all_chars_cons, Ha, Hall.
        repeat split; [discriminate | exact Hk].
      * exists (String a ""), s. rewrite all_chars_cons, Ha.
        repeat split; [discriminate | exact Hk].
    + intros (pre & rest & Hs & Hpre & Hall & Hk).
      destruct pre as [|b pre]; [congruence|].
      rewrite append_cons in Hs. injection Hs as <- ->.
      rewrite all_chars_cons in Hall. apply andb_true_iff in Hall as [Hb Hall].
      split; [exact Hb|].
      destruct pre as [|c pre].
      * right. exact Hk.
      * left. exists (String c pre), rest. repeat split; [discriminate | | ]; assumption.
Qed.

Lemma at_end_spec (s : string) :
  Re.at_end s = true <-> s = "" \/ s = String PyStr.nl "".
Proof.
  destruct s as [|a [|b s]]; cbn.
  - split; auto.
  - rewrite Ascii.eqb_eq. split.
    + intros ->. right. reflexivity.
    + intros [H | H]; [discriminate | injection H; auto].
  - split; [discriminate | intros [H | H]; discriminate].
Qed.

(** X16. The model name pattern accepts exactly the names that are a run of
    letters, digits, [_], [.] and [-] that is not empty, optionally preceded
    by one such run and a slash, and optionally followed by one newline. *)
Theorem model_name_pattern (s : string) :
  Regex.py_match Config.MODEL_NAME_REGEX s = true
  <-> exists name tail : string,
        name <> "" /\ all_chars Config.model_name_char name = true
        /\ (tail = "" \/ tail = String PyStr.nl "")
        /\ (s = name +:+ tail
            \/ exists owner : string,
                 owner <> "" /\ all_chars Config.model_name_char owner = true
                 /\ s = owner +:+ ("/" +:+ (name +:+ tail))).
Proof.
  unfold Regex.py_match, Config.MODEL_NAME_REGEX. cbn [Regex.matches].
  rewrite plus_chars_spec. split.
  - intros (pre & rest & -> & Hpre & Hall & Hk).
    apply orb_true_iff in Hk as [Hk | Hk].
    + destruct rest as [|a rest]; [discriminate|].
      destruct (Ascii.eqb "/" a) eqn:Ha; [|discriminate].
      apply Ascii.eqb_eq in Ha. subst a.
      apply plus_chars_spec in Hk as (name & tail & -> & Hname & Hall2 & Hend).
      destruct (Re.at_end tail) eqn:Htail; [|discriminate].
      apply at_end_spec in Htail.
      exists name, tail. repeat split; try assumption.
      right. exists pre. repeat split; assumption.
    + destruct (Re.at_end rest) eqn:Htail; [|discriminate].
      apply at_end_spec in Htail.
      exists pre, rest. repeat split; try assumption. left. reflexivity.
  - intros (name & tail & Hname & Hall & Htail & [-> | (owner & Howner & Hall2 & ->)]).
    + exists name, tail. repeat split; try assumption.
      apply orb_true_iff. right.
      apply at_end_spec in Htail. rewrite Htail. reflexivity.
    + exists owner, ("/" +:+ (name +:+ tail)). repeat split; try assumption.
      apply orb_true_iff. left.
      change ("/" +:+ (name +:+ tail)) with (String "/" (name +:+ tail)).
      cbv beta iota. change (Ascii.eqb "/" "/") with true. cbv beta iota.
      apply plus_chars_spec. exists name, tail. repeat split; try assumption.
      apply at_end_spec in Htail. rewrite Htail. reflexivity.
Qed.

Lemma model_name_pattern_witness :
  exists name tail : string,
    name <> "" /\ all_chars Config.model_name_char name = true
    /\ (tail = "" \/ tail = String PyStr.nl "")
    /\ ("my-org/gpt2-small" = name +:+ tail
        \/ exists owner : string,
             owner <> "" /\ all_chars Config.model_name_char owner = true
             /\ "my-org/gpt2-small" = owner +:+ ("/" +:+ (name +:+ tail))).
Proof.
  apply (proj1 (model_name_pattern "my-org/gpt2-small")). vm_compute. reflexivity.
Defined.

(** ** More on truncation *)

Lemma append_nil_r (s : string) : s +:+ "" = s.
Proof.
  induction s as [|a s IH]; [reflexivity|]. rewrite append_cons, IH. reflexivity.
Qed.


Lemma take_drop (n : nat) (s : string) : s = PyStr.take n s +:+ Re.drop n s.
Proof.
  revert s; induction n as [|n IH]; intros [|a s]; try reflexivity.
  cbn [PyStr.take Re.drop]. rewrite append_cons. f_equal. apply IH.
Qed.

Lemma slice_to_take (s : string) (n : Z) :
  exists k : nat, PyStr.slice_to s n = PyStr.take k s.
Proof. unfold PyStr.slice_to. destruct (0 <=? n); eauto. Qed.

Section TruncationShape.

Variable cfg : Config.t.

(** The result of [truncate_content] is the content or a cut of it. *)
Lemma truncate_content_take (content : string) (max_chars : option Z) :
  exists k : nat,
    LLMReviewer.truncate_content cfg content max_chars = PyStr.take k content.
Proof.
  unfold LLMReviewer.truncate_content.
  destruct (_ <=? _).
  - exists (String.length content). symmetry. apply take_all. lia.
  - destruct (Qltb _ _).
    + destruct (slice_to_take content
                  match max_chars with
                  | Some m => m
                  | None => Config.max_diff_length cfg
                  end) as [k ->].
      destruct (slice_to_take (PyStr.take k content)
                  (PyStr.rfind (PyStr.take k content) PyStr.nl)) as [j ->].
      rewrite take_take. eauto.
    + apply slice_to_take.
Qed.

(** X17. Whatever the budget, even a negative one or the default of the
    configuration, [truncate_content] returns a prefix of the content: it
    never changes or reorders a character. *)
Theorem truncate_content_is_prefix (content : string) (max_chars : option Z) :
  exists rest : string,
    content = LLMReviewer.truncate_content cfg content max_chars +:+ rest.
Proof.
  destruct (truncate_content_take content max_chars) as [k ->].
  exists (Re.drop k content). apply take_drop.
Qed.

(** The two ways a text over the budget is cut. *)
Lemma truncate_content_cut (content : string) (max_chars : Z) :
  0 < max_chars -> max_chars < PyStr.len content ->
  exists k : Z,
    LLMReviewer.truncate_content cfg content (Some max_chars)
    = PyStr.take (Z.to_nat k) content
    /\ (k = max_chars \/ (4 * max_chars < 5 * k /\ k < max_chars)).
Proof.
  intros Hpos Hlen. unfold LLMReviewer.truncate_content, PyStr.len in *.
  destruct (_ <=? _) eqn:E; [lia | clear E].
  rewrite (slice_to_nonneg content max_chars) by lia.
  set (truncated := PyStr.take (Z.to_nat max_chars) content).
  assert (Hm : String.length truncated = Z.to_nat max_chars).
  { unfold truncated. rewrite take_length. lia. }
  unfold PyStr.rfind.
  destruct (rfind_from_spec PyStr.nl truncated 0 (-1))
    as [[Hr _] | (k & Hk & Hr & _ & _)]; rewrite Hr.
  - destruct (Qltb _ _) eqn:Ht; [apply tail_window_test in Ht; lia|].
    exists max_chars. split; [reflexivity | left; reflexivity].
  - rewrite Hm in Hk. destruct (Qltb _ _) eqn:Ht.
    + apply tail_window_test in Ht. exists (Z.of_nat k).
      split; [|right; lia].
      rewrite slice_to_nonneg by lia. unfold truncated. rewrite take_take.
      f_equal. lia.
    + exists max_chars. split; [reflexivity | left; reflexivity].
Qed.

(** X18. A text over the budget keeps at least 80% of the budget: the
    result of [truncate_content] has at least [0.8 * max_chars] characters (and
    at most [max_chars]), so it is never empty. *)
Theorem truncate_content_keeps_most_of_budget (content : string)
    (max_chars : Z) (Hpos : 0 < max_chars)
    (Hover : max_chars < PyStr.len content) :
  let result := LLMReviewer.truncate_content cfg content (Some max_chars) in
  4 * max_chars <= 5 * PyStr.len result
  /\ PyStr.len result <= max_chars
  /\ result <> "".
Proof.
  intros result.
  destruct (truncate_content_cut content max_chars Hpos Hover) as (k & Hcut & Hk).
  assert (Hlen : PyStr.len result = k).
  { unfold result. rewrite Hcut. unfold PyStr.len in *. rewrite take_length. lia. }
  rewrite Hlen. split; [lia|]. split; [lia|].
  intros Hempty. rewrite Hempty in Hlen. unfold PyStr.len in Hlen.
  cbn in Hlen. lia.
Qed.

(** X19. With a positive budget [truncate_content] is idempotent: a
    truncated text is within the budget and is left as it is. *)
Theorem truncate_content_idempotent (content : string) (max_chars : Z)
    (Hpos : 0 < max_chars) :
  LLMReviewer.truncate_content cfg
    (LLMReviewer.truncate_content cfg content (Some max_chars)) (Some max_chars)
  = LLMReviewer.truncate_content cfg content (Some max_chars).
Proof.
  assert (Hfit : forall s : string,
             PyStr.len s <= max_chars ->
             LLMReviewer.truncate_content cfg s (Some max_chars) = s).
  { intros s Hs. unfold LLMReviewer.truncate_content.
    destruct (_ <=? _) eqn:E; [reflexivity | lia]. }
  destruct (Z_le_gt_dec (PyStr.len content) max_chars) as [Hle | Hgt].
  - rewrite (Hfit content Hle). apply Hfit. exact Hle.
  - apply Hfit.
    destruct (truncate_content_cut content max_chars Hpos ltac:(lia))
      as (k & -> & Hk).
    unfold PyStr.len in *. rewrite take_length. lia.
Qed.

End TruncationShape.

Lemma truncate_content_keeps_most_of_budget_witness :
  4 * 10 <= 5 * PyStr.len (LLMReviewer.truncate_content sample_config
                             "first row
second row
third row" (Some 10))
  /\ PyStr.len (LLMReviewer.truncate_content sample_config "first row
second row
third row" (Some 10)) <= 10
  /\ LLMReviewer.truncate_content sample_config "first row
second row
third row" (Some 10) <> "".
Proof.
  apply (truncate_content_keeps_most_of_budget sample_config "first row
second row
third row" 10); [lia | vm_compute; reflexivity].
Defined.

Lemma truncate_content_idempotent_witness :
  LLMReviewer.truncate_content sample_config
    (LLMReviewer.truncate_content sample_config "first row
second row
third row" (Some 10)) (Some 10)
  = LLMReviewer.truncate_content sample_config "first row
second row
third row" (Some 10).
Proof.
  apply (truncate_content_idempotent sample_config "first row
second row
third row" 10). lia.
Defined.

(** ** The cleaning of a review ([_clean_review_response]) *)

Section Cleaning.
Import LLMReviewer.

Lemma all_chars_nil (p : ascii -> bool) : all_chars p "" = true.
Proof. reflexivity. Qed.

Lemma rstrip_by_cons (p : ascii -> bool) (a : ascii) (s : string) :
  PyStr.rstrip_by p (String a s)
  = match PyStr.rstrip_by p s with
    | EmptyString => if p a then EmptyString else String a EmptyString
    | r => String a r
    end.
Proof. reflexivity. Qed.

(** Stripping on the right leaves nothing exactly when every character is
    stripped. *)
Lemma rstrip_empty_iff (p : ascii -> bool) (s : string) :
  PyStr.rstrip_by p s = "" <-> all_chars p s = true.
Proof.
  induction s as [|a s IH]; [split; reflexivity|].
  rewrite rstrip_by_cons, all_chars_cons, andb_true_iff.
  destruct (PyStr.rstrip_by p s) as [|b r].
  - destruct (p a).
    + split; [|reflexivity].
      intros _. split; [reflexivity | apply IH; reflexivity].
    + split; [discriminate | intros [H _]; discriminate].
  - split; [discriminate|]. intros [_ H]. apply IH in H. discriminate.
Qed.

Lemma match_here_plain (chars : string) (rest : list Re.atom) (s : string)
    (caps : list string) (used : nat) :
  Re.match_here (Re.NoneOfPlus chars :: rest) s caps used
  = plain_loop chars rest caps s used.
Proof. reflexivity. Qed.

(** [[^chars]+$] matches at the head of [s] when [s] is not empty and holds
    none of [chars]; it then takes all of [s]. *)
Lemma plain_loop_end (chars : string) (caps : list string)
    (Hnl : PyStr.mem PyStr.nl chars = false) (s : string) :
  forall used : nat,
    plain_loop chars [Re.EndAnchor] caps s used
    = if PyStr.truthy s && all_chars (fun a => negb (PyStr.mem a chars)) s
      then Some (caps, (used + String.length s)%nat)
      else None.
Proof.
  induction s as [|a s IH]; intros used; [reflexivity|].
  cbn [plain_loop PyStr.truthy andb]. rewrite all_chars_cons.
  destruct (PyStr.mem a chars) eqn:Ha; [reflexivity|]. cbn [negb andb].
  fold (plain_loop chars [Re.EndAnchor] caps). rewrite IH.
  destruct s as [|b s].
  - cbn. f_equal. f_equal. lia.
  - cbn [PyStr.truthy andb].
    destruct (all_chars _ (String b s)) eqn:Hall.
    + f_equal. f_equal. cbn [String.length]. lia.
    + cbn [Re.match_here].
      destruct (Re.at_end (String b s)) eqn:Hend; [|reflexivity].
      apply at_end_spec in Hend as [Hend | Hend]; [discriminate|].
      injection Hend as -> ->. rewrite all_chars_cons, Hnl in Hall. discriminate.
Qed.

Lemma trailing_match (s : string) :
  Re.match_here trailing_fragment_re s [] 0
  = if PyStr.truthy s && all_chars not_terminal s
    then Some ([], String.length s) else None.
Proof.
  unfold trailing_fragment_re. rewrite match_here_plain.
  rewrite plain_loop_end by reflexivity. reflexivity.
Qed.

(** Where the search finds the trailing fragment, and what is before it. *)
Lemma trailing_search (s : string) :
  forall start : nat,
    match Re.search_from trailing_fragment_re s start with
    | None => PyStr.rstrip_by not_terminal s = s
    | Some (i, used, _) =>
        exists n : nat,
          i = (start + n)%nat /\ (n + used = String.length s)%nat
          /\ (0 < used)%nat
          /\ PyStr.take n s = PyStr.rstrip_by not_terminal s
    end.
Proof.
  induction s as [|a s IH]; intros start; cbn [Re.search_from];
    rewrite trailing_match.
  - reflexivity.
  - cbn [PyStr.truthy andb].
    destruct (all_chars not_terminal (String a s)) eqn:Hall.
    + exists 0%nat. repeat split; [lia | cbn; lia|].
      symmetry. apply rstrip_empty_iff. exact Hall.
    + specialize (IH (S start)).
      destruct (Re.search_from trailing_fragment_re s (S start))
        as [[[i used] caps]|].
      * destruct IH as (n & Hi & Hn & Hused & Htake).
        exists (S n). repeat split; [lia | cbn; lia | exact Hused |].
        cbn [PyStr.take]. rewrite rstrip_by_cons, Htake.
        destruct (PyStr.rstrip_by not_terminal s) as [|b r] eqn:Hr; [|reflexivity].
        apply rstrip_empty_iff in Hr.
        rewrite all_chars_cons, Hr, andb_true_r in Hall. rewrite Hall. reflexivity.
      * rewrite rstrip_by_cons, IH.
        destruct s as [|b s]; [|reflexivity].
        rewrite all_chars_cons, all_chars_nil, andb_true_r in Hall.
        rewrite Hall. reflexivity.
Qed.

Lemma drop_all (n : nat) (s : string) :
  (String.length s <= n)%nat -> Re.drop n s = "".
Proof.
  revert s; induction n as [|n IH]; intros [|a s]; cbn; intros H;
    try reflexivity; try lia.
  apply IH. lia.
Qed.

Lemma sub_turns_nothing (turns : nat) :
  Re.sub_turns turns trailing_fragment_re "" = "".
Proof. destruct turns; reflexivity. Qed.

(** The substitution removes the trailing run of characters that do not end
    a sentence. *)
Lemma sub_trailing (s : string) :
  Re.sub trailing_fragment_re s = PyStr.rstrip_by not_terminal s.
Proof.
  unfold Re.sub. cbn [Re.sub_turns].
  pose proof (trailing_search s 0) as H.
  destruct (Re.search_from trailing_fragment_re s 0) as [[[i used] caps]|].
  - destruct H as (n & Hi & Hn & Hused & Htake).
    destruct used as [|used]; [lia|].
    rewrite drop_all by lia. rewrite sub_turns_nothing, append_nil_r.
    cbn in Hi. subst i. exact Htake.
  - symmetry. exact H.
Qed.

(** What is left after stripping on the right ends with a character that is
    not stripped. *)
Lemma rstrip_last (p : ascii -> bool) (s : string) :
  PyStr.rstrip_by p s = ""
  \/ exists a, last_char (PyStr.rstrip_by p s) = Some a /\ p a = false.
Proof.
  induction s as [|a s IH]; [left; reflexivity|].
  rewrite rstrip_by_cons.
  destruct (PyStr.rstrip_by p s) as [|b r].
  - destruct (p a) eqn:E; [left; reflexivity|]. right. exists a. auto.
  - right. destruct IH as [H | (c & Hc & Hp)]; [discriminate|].
    exists c. split; [exact Hc | exact Hp].
Qed.

Lemma lstrip_last (p : ascii -> bool) (t : string) (a : ascii) :
  last_char t = Some a -> p a = false ->
  last_char (PyStr.lstrip_by p t) = Some a.
Proof.
  induction t as [|b t IH]; [discriminate|].
  intros Hlast Hp. cbn [PyStr.lstrip_by].
  destruct (p b) eqn:Hb; [|exact Hlast].
  apply IH; [|exact Hp].
  destruct t as [|c t]; [|exact Hlast].
  cbn in Hlast. injection Hlast as ->. congruence.
Qed.

Lemma rstrip_fixed (p : ascii -> bool) (u : string) (a : ascii) :
  last_char u = Some a -> p a = false -> PyStr.rstrip_by p u = u.
Proof.
  induction u as [|b u IH]; [discriminate|].
  intros Hlast Hp. rewrite rstrip_by_cons.
  destruct u as [|c u].
  - cbn in Hlast. injection Hlast as ->. cbn. rewrite Hp. reflexivity.
  - rewrite IH by assumption. reflexivity.
Qed.

Lemma terminal_is_not_space (a : ascii) :
  not_terminal a = false -> PyStr.is_space a = false.
Proof.
  unfold not_terminal. rewrite negb_false_iff. cbn [PyStr.mem].
  rewrite !orb_true_iff, !Ascii.eqb_eq.
  intros [-> | [-> | [-> | H]]]; try reflexivity. discriminate.
Qed.

(** The cleaned review in closed form. *)
Lemma clean_review_closed_form (review : string) :
  _clean_review_response review
  = PyStr.lstrip_by PyStr.is_space (PyStr.rstrip_by not_terminal review).
Proof.
  unfold _clean_review_response.
  destruct review as [|a review]; [reflexivity|]. cbn [PyStr.truthy negb].
  rewrite sub_trailing.
  destruct (rstrip_last not_terminal (String a review)) as [H | (c & Hc & Hp)].
  - rewrite H. reflexivity.
  - rewrite Hc. fold (not_terminal c). rewrite Hp.
    unfold PyStr.strip. apply rstrip_fixed with (a := c).
    + apply lstrip_last; [exact Hc | apply terminal_is_not_space; exact Hp].
    + apply terminal_is_not_space. exact Hp.
Qed.

(** The cleaned review is empty or ends a sentence. *)
Lemma clean_review_last (review : string) :
  _clean_review_response review = ""
  \/ exists a, last_char (_clean_review_response review) = Some a
               /\ not_terminal a = false.
Proof.
  rewrite clean_review_closed_form.
  destruct (rstrip_last not_terminal review) as [H | (c & Hc & Hp)].
  - left. rewrite H. reflexivity.
  - right. exists c. split; [|exact Hp].
    apply lstrip_last; [exact Hc | apply terminal_is_not_space; exact Hp].
Qed.

(** X20. The cleaned review is the review cut after its last [.], [!] or
    [?], with the leading whitespace removed. The period the code would
    append is never appended: what the substitution leaves is empty or
    already ends with one of the three marks. *)
Theorem clean_review_cuts_after_last_sentence (review : string) :
  _clean_review_response review
  = PyStr.lstrip_by PyStr.is_space (PyStr.rstrip_by not_terminal review)
  /\ (last_char (Re.sub trailing_fragment_re review) = None
      \/ exists a, last_char (Re.sub trailing_fragment_re review) = Some a
                   /\ PyStr.mem a ".!?" = true).
Proof.
  split; [apply clean_review_closed_form|].
  rewrite sub_trailing.
  destruct (rstrip_last not_terminal review) as [H | (c & Hc & Hp)].
  - left. rewrite H. reflexivity.
  - right. exists c. split; [exact Hc|].
    unfold not_terminal in Hp. apply negb_false_iff in Hp. exact Hp.
Qed.

(** X21. A cleaned review is empty or ends with [.], [!] or [?]; it is
    empty exactly when the review holds none of these marks, so an answer
    without sentence-ending punctuation is discarded as a whole. *)
Theorem clean_review_ends_a_sentence (review : string) :
  (_clean_review_response review = ""
   \/ exists a, last_char (_clean_review_response review) = Some a
                /\ PyStr.mem a ".!?" = true)
  /\ (_clean_review_response review = "" <-> all_chars not_terminal review = true).
Proof.
  split.
  - destruct (clean_review_last review) as [H | (a & Ha & Hp)]; [left; exact H|].
    right. exists a. split; [exact Ha|].
    unfold not_terminal in Hp. apply negb_false_iff in Hp. exact Hp.
  - rewrite <- rstrip_empty_iff, clean_review_closed_form. split.
    + intros Hempty.
      destruct (rstrip_last not_terminal review) as [H | (c & Hc & Hp)];
        [exact H|].
      pose proof (lstrip_last PyStr.is_space _ c Hc
                    (terminal_is_not_space c Hp)) as Hlast.
      rewrite Hempty in Hlast. discriminate.
    + intros ->. reflexivity.
Qed.

(** X22. Cleaning is idempotent: a cleaned review is left as it is. *)
Theorem clean_review_idempotent (review : string) :
  _clean_review_response (_clean_review_response review)
  = _clean_review_response review.
Proof.
  destruct (clean_review_last review) as [H | (a & Ha & Hp)].
  - rewrite H. reflexivity.
  - rewrite (clean_review_closed_form (_clean_review_response review)).
    rewrite (rstrip_fixed not_terminal _ a Ha Hp).
    rewrite clean_review_closed_form. apply lstrip_by_idem.
Qed.

End Cleaning.

Lemma clean_review_ends_a_sentence_witness :
  LLMReviewer._clean_review_response "no punctuation at all" = "".
Proof.
  apply (proj2 (clean_review_ends_a_sentence "no punctuation at all")).
  vm_compute. reflexivity.
Defined.

(** ** More on the review generator *)

Section GeneratorOutcomes.
Import World LLMReviewer.

Variable cfg : Config.t.
Variable o : oracle.

Lemma generated_text_of_ok (v : pyval) :
  result_object v = true -> exists t, generated_text_of v = Ok t.
Proof.
  destruct v as [| | | | | |d]; try discriminate.
  unfold result_object, generated_text_of.
  destruct (Py.dict_get_default d "generated_text" (PyStr "")) as [| | | |s| |];
    cbn [Py.truthy negb]; intros H;
    try (rewrite (proj1 (negb_true_iff _) H); eauto; fail);
    try discriminate; try eauto.
  destruct (PyStr.truthy s); eauto.
Qed.

Lemma parse_success_ok (resp : response) :
  (forall v, json resp = Some v -> well_shaped v = true) ->
  exists t, parse_success resp = Ok t.
Proof.
  intros H. unfold parse_success.
  destruct (json resp) as [v|]; [|eauto].
  specialize (H v eq_refl).
  destruct v as [| | | | |[|first l]|d]; eauto;
    apply generated_text_of_ok; exact H.
Qed.

(** With well-shaped payloads the inference call raises nothing. *)
Lemma call_huggingface_api_no_raise (Hshape : payloads_well_shaped o)
    (prompt : string) (fuel : nat) :
  forall (retry_count : Z) (w w' : World.t) (r : result (option string)),
    _call_huggingface_api fuel cfg o prompt retry_count w = Some (r, w') ->
    exists t, r = Ok t.
Proof.
  induction fuel as [|fuel IH]; intros retry_count w w' r; [discriminate|].
  cbn [_call_huggingface_api].
  destruct (retry_count >=? _); [intros [= <- _]; eauto|].
  unfold http. cbv beta iota.
  destruct (net o (calls w)) as [resp| | |] eqn:Hnet.
  - destruct (status_code resp =? 200).
    + intros [= <- _]. apply parse_success_ok.
      intros v Hv. exact (Hshape _ _ _ Hnet Hv).
    + destruct (status_code resp =? 503); [apply IH|].
      destruct (_ && _); [apply IH | intros [= <- _]; eauto].
  - destruct (_ <? _); [apply IH | intros [= <- _]; eauto].
  - destruct (_ <? _); [apply IH | intros [= <- _]; eauto].
  - destruct (_ <? _); [apply IH | intros [= <- _]; eauto].
Qed.

(** X23. When every JSON body the endpoint returns is well shaped (a list
    that starts with a result object, or a result object, whose
    [generated_text] is a text when it is present and truthy), the generator
    raises nothing and returns a document that is not empty, whatever the
    statuses, timeouts and connection errors are. *)
Theorem generator_returns_a_document (Hshape : payloads_well_shaped o)
    (pr_title pr_description diff_content : string) (w : World.t) :
  exists (doc : string) (w' : World.t),
    generate_review_with_fallback cfg o pr_title pr_description diff_content w
    = Some (Ok doc, w')
    /\ doc <> "".
Proof.
  destruct (generate_review_with_fallback_returns cfg o pr_title pr_description
              diff_content w) as (r & w' & Hgen).
  assert (Hok : exists doc, r = Ok doc).
  { revert Hgen. unfold generate_review_with_fallback, generate_review.
    destruct (_call_huggingface_api _ _ _ _ _ _) as [[r0 w0]|] eqn:Hcall;
      [|discriminate].
    apply (call_huggingface_api_no_raise Hshape) in Hcall as [t ->].
    destruct t as [review|]; [|intros [= <- _]; eauto].
    destruct (PyStr.truthy review); [|intros [= <- _]; eauto].
    destruct (PyStr.truthy (_clean_review_response review));
      intros [= <- _]; eauto. }
  destruct Hok as [doc ->]. exists doc, w'. split; [exact Hgen|].
  apply truthy_nonempty.
  exact (generate_review_with_fallback_nonempty cfg o _ _ _ _ _ _ Hgen).
Qed.

(** X24. A client error of the endpoint (4xx) is not retried: the inference
    call returns [None] after that one request, without sleeping, and the
    generator hands out the fallback review. *)
Theorem inference_client_error_fails_at_once
    (pr_title pr_description diff_content : string) (w : World.t)
    (resp : response)
    (Hceiling : 0 < Config.max_retries cfg)
    (Hnet : net o (calls w) = Returned resp)
    (Hstatus : 400 <= status_code resp < 500) :
  exists w' : World.t,
    generate_review_with_fallback cfg o pr_title pr_description diff_content w
    = Some (Ok (_generate_fallback_review diff_content), w')
    /\ requests (trace w') = S (requests (trace w))
    /\ sleeps (trace w') = sleeps (trace w).
Proof.
  unfold generate_review_with_fallback, generate_review, enough_fuel.
  cbn [_call_huggingface_api].
  destruct (0 >=? Config.max_retries cfg) eqn:E; [lia|].
  unfold http. cbv beta iota. rewrite Hnet.
  destruct (status_code resp =? 200) eqn:E200; [lia|].
  destruct (status_code resp =? 503) eqn:E503; [lia|].
  destruct (500 <=? status_code resp) eqn:E500; [lia|]. cbn [andb].
  eexists. split; [reflexivity|]. cbn [trace].
  rewrite requests_app, sleeps_app. cbn. split; lia.
Qed.

(** The waits of the inference call add up to at most
    [5 * (n * (n + 1) - k * (k + 1))] seconds from retry count [k] on. *)
Lemma call_huggingface_api_sleeps (prompt : string) (fuel : nat) :
  forall (retry_count : Z) (w : World.t),
    0 <= retry_count <= Config.max_retries cfg ->
    (Z.to_nat (Config.max_retries cfg - retry_count) < fuel)%nat ->
    exists (r : result (option string)) (w' : World.t) (evs : list event),
      _call_huggingface_api fuel cfg o prompt retry_count w = Some (r, w')
      /\ extends w w' evs
      /\ (total_sleep evs
          <= inject_Z (5 * (Config.max_retries cfg * (Config.max_retries cfg + 1)
                            - retry_count * (retry_count + 1))))%Q.
Proof.
  set (n := Config.max_retries cfg).
  induction fuel as [|fuel IH]; intros retry_count w Hrc Hfuel; [lia|].
  cbn [_call_huggingface_api]. fold n.
  destruct (retry_count >=? n) eqn:Hguard.
  { exists (Ok None), w, []. split; [reflexivity|].
    split; [apply extends_refl|]. cbn. rewrite <- (Zle_Qle 0). nia. }
  assert (Hlt : retry_count < n) by lia.
  unfold http. cbv beta iota.
  set (w1 := {| calls := S (calls w); ticks := ticks w; draws := draws w;
                trace := (trace w ++ [Post prompt])%list |}).
  assert (Hstop : forall r : result (option string),
             exists (r' : result (option string)) (w' : World.t)
                    (evs : list event),
               Some (r, w1) = Some (r', w')
               /\ extends w w' evs
               /\ (total_sleep evs
                   <= inject_Z (5 * (n * (n + 1)
                                     - retry_count * (retry_count + 1))))%Q).
  { intros r. exists r, w1, [Post prompt]. split; [reflexivity|].
    split; [reflexivity|]. cbn. rewrite <- (Zle_Qle 0). nia. }
  assert (Hretry : forall seconds : Z,
             seconds <= 10 * (retry_count + 1) ->
             exists (r' : result (option string)) (w' : World.t)
                    (evs : list event),
               _call_huggingface_api fuel cfg o prompt (retry_count + 1)
                 (sleep (inject_Z seconds) w1) = Some (r', w')
               /\ extends w w' evs
               /\ (total_sleep evs
                   <= inject_Z (5 * (n * (n + 1)
                                     - retry_count * (retry_count + 1))))%Q).
  { intros seconds Hsec.
    destruct (IH (retry_count + 1) (sleep (inject_Z seconds) w1))
      as (r & w' & evs & Hcall & Hext & Hsleep); [lia | lia|].
    exists r, w', ([Post prompt; Sleep (inject_Z seconds)] ++ evs)%list.
    split; [exact Hcall|]. split.
    - eapply extends_trans; [|exact Hext]. unfold extends. cbn.
      rewrite <- List.app_assoc. reflexivity.
    - cbn [app total_sleep List.fold_right]. fold (total_sleep evs).
      apply Qle_trans
        with (y := (inject_Z seconds
                    + inject_Z (5 * (n * (n + 1)
                                     - (retry_count + 1) * (retry_count + 1 + 1))))%Q).
      + apply Qplus_le_r. exact Hsleep.
      + rewrite <- inject_Z_plus, <- Zle_Qle. nia. }
  destruct (net o (calls w)) as [resp| | |].
  - destruct (status_code resp =? 200); [apply Hstop|].
    destruct (status_code resp =? 503); [apply Hretry; lia|].
    destruct (_ && _); [apply Hretry; lia | apply Hstop].
  - destruct (retry_count <? _); [apply Hretry; lia | apply Hstop].
  - destruct (retry_count <? _); [apply Hretry; lia | apply Hstop].
  - destruct (retry_count <? _); [apply Hretry; lia | apply Hstop].
Qed.

(** X25. With a ceiling [n >= 0], all the waits of one inference call add up
    to at most [5 * n * (n + 1)] seconds: 150 seconds with the default
    ceiling of 5. *)
Theorem inference_waits_are_bounded (prompt : string) (w : World.t)
    (Hceiling : 0 <= Config.max_retries cfg) :
  exists (r : result (option string)) (w' : World.t) (evs : list event),
    _call_huggingface_api (enough_fuel cfg 0) cfg o prompt 0 w = Some (r, w')
    /\ extends w w' evs
    /\ (total_sleep evs
        <= inject_Z (5 * Config.max_retries cfg * (Config.max_retries cfg + 1)))%Q.
Proof.
  destruct (call_huggingface_api_sleeps prompt (enough_fuel cfg 0) 0 w)
    as (r & w' & evs & Hcall & Hext & Hsleep); [lia | unfold enough_fuel; lia|].
  exists r, w', evs. split; [exact Hcall|]. split; [exact Hext|].
  eapply Qle_trans; [exact Hsleep|]. rewrite <- Zle_Qle. nia.
Qed.

End GeneratorOutcomes.

Lemma one_result_well_shaped :
  payloads_well_shaped (oracle_always (World.Returned one_result)).
Proof.
  intros k resp v Hnet Hjson. cbn in Hnet. injection Hnet as <-.
  cbn in Hjson. injection Hjson as <-. reflexivity.
Defined.

Lemma generator_returns_a_document_witness :
  exists (doc : string) (w' : World.t),
    LLMReviewer.generate_review_with_fallback sample_config
      (oracle_always (World.Returned one_result))
      "Bump" "Bump the version" "+version = 2" World.initial
    = Some (Ok doc, w')
    /\ doc <> "".
Proof.
  exact (generator_returns_a_document sample_config
           (oracle_always (World.Returned one_result)) one_result_well_shaped
           "Bump" "Bump the version" "+version = 2" World.initial).
Defined.

Lemma inference_client_error_fails_at_once_witness :
  exists w' : World.t,
    LLMReviewer.generate_review_with_fallback sample_config
      (oracle_always (World.Returned unauthorized))
      "Bump" "Bump the version" "+version = 2" World.initial
    = Some (Ok (LLMReviewer._generate_fallback_review "+version = 2"), w')
    /\ World.requests (World.trace w') = S (World.requests (World.trace World.initial))
    /\ World.sleeps (World.trace w') = World.sleeps (World.trace World.initial).
Proof.
  apply (inference_client_error_fails_at_once sample_config
           (oracle_always (World.Returned unauthorized))
           "Bump" "Bump the version" "+version = 2" World.initial unauthorized).
  - vm_compute. reflexivity.
  - reflexivity.
  - vm_compute. split; [discriminate | reflexivity].
Defined.

Lemma inference_waits_are_bounded_witness :
  exists (r : result (option string)) (w' : World.t) (evs : list World.event),
    LLMReviewer._call_huggingface_api (LLMReviewer.enough_fuel sample_config 0)
      sample_config (oracle_always (World.Returned model_loading)) "prompt" 0
      World.initial = Some (r, w')
    /\ extends World.initial w' evs
    /\ (total_sleep evs
        <= inject_Z (5 * Config.max_retries sample_config
                     * (Config.max_retries sample_config + 1)))%Q.
Proof.
  apply (inference_waits_are_bounded sample_config
           (oracle_always (World.Returned model_loading)) "prompt" World.initial).
  vm_compute. discriminate.
Defined.

(** A cleaned answer of the model is what the generator returns. *)
Example answer_is_cut_after_last_sentence :
  exists w' : World.t,
    LLMReviewer.generate_review_with_fallback sample_config
      (oracle_always (World.Returned one_result))
      "Bump" "Bump the version" "+version = 2" World.initial
    = Some (Ok "Looks fine.", w').
Proof. eexists. vm_compute. reflexivity. Qed.

(** ** More on the fallback statistics *)

Section FallbackCounts.
Import LLMReviewer Samples.

(** Splitting a text at a newline splits its list of lines. *)
Lemma split_on_newline (a b cur : string) :
  PyStr.split_on PyStr.nl (a +:+ String PyStr.nl b) cur
  = (PyStr.split_on PyStr.nl a cur ++ PyStr.split_on PyStr.nl b "")%list.
Proof.
  revert cur; induction a as [|c a IH]; intros cur.
  - cbn. reflexivity.
  - rewrite append_cons. cbn [PyStr.split_on].
    destruct (Ascii.eqb c PyStr.nl); rewrite IH; reflexivity.
Qed.

Lemma count_lines_app (p : string -> bool) (l1 l2 : list string) :
  count_lines p (l1 ++ l2)%list = count_lines p l1 + count_lines p l2.
Proof.
  unfold count_lines. rewrite List.filter_app, List.length_app. lia.
Qed.

(** X26. The three statistics of the fallback report are additive: for two
    diffs joined by a newline each count is the sum of the counts of the
    parts. *)
Theorem fallback_counts_are_additive (d1 d2 : string) :
  added_lines_of (d1 +:+ String PyStr.nl d2)
  = added_lines_of d1 + added_lines_of d2
  /\ removed_lines_of (d1 +:+ String PyStr.nl d2)
     = removed_lines_of d1 + removed_lines_of d2
  /\ file_changes_of (d1 +:+ String PyStr.nl d2)
     = file_changes_of d1 + file_changes_of d2.
Proof.
  unfold added_lines_of, removed_lines_of, file_changes_of, PyStr.split.
  rewrite split_on_newline, !count_lines_app. repeat split.
Qed.

Lemma startswith_cons (a : ascii) (p : string) (b : ascii) (l : string) :
  PyStr.startswith (String b l) (String a p)
  = if ascii_dec a b then PyStr.startswith l p else false.
Proof. reflexivity. Qed.

(** A line falls in at most one of the three categories. *)
Lemma line_categories_disjoint (l : string) :
  (if is_added l then 1 else 0) + (if is_removed l then 1 else 0)
  + (if is_file_marker l then 1 else 0) <= 1.
Proof.
  unfold is_added, is_removed, is_file_marker.
  destruct l as [|b l]; [cbn; lia|].
  rewrite !startswith_cons.
  destruct (ascii_dec "+" b) as [Hp | Hp], (ascii_dec "-" b) as [Hm | Hm].
  - rewrite <- Hp in Hm. discriminate.
  - cbn [andb]. destruct (PyStr.startswith l "++");
      destruct (PyStr.startswith l ""); cbn; lia.
  - cbn [andb]. destruct (PyStr.startswith l "" && _); lia.
  - cbn. lia.
Qed.

Lemma count_lines_cons (p : string -> bool) (l : string) (ls : list string) :
  count_lines p (l :: ls) = (if p l then 1 else 0) + count_lines p ls.
Proof.
  unfold count_lines. cbn [List.filter]. destruct (p l); simpl; lia.
Qed.

Lemma categories_bounded (lines : list string) :
  count_lines is_added lines + count_lines is_removed lines
  + count_lines is_file_marker lines <= Z.of_nat (List.length lines).
Proof.
  induction lines as [|l lines IH]; [unfold count_lines; simpl; lia|].
  rewrite !count_lines_cons. pose proof (line_categories_disjoint l).
  simpl List.length. lia.
Qed.

(** X27. No line is counted twice: a [+++] line counts as a file marker and
    not as an added line, no line is both added and removed, and the three
    counts together are at most the number of lines of the diff. *)
Theorem fallback_counts_are_disjoint (diff_content : string) :
  0 <= added_lines_of diff_content
  /\ 0 <= removed_lines_of diff_content
  /\ 0 <= file_changes_of diff_content
  /\ added_lines_of diff_content + removed_lines_of diff_content
     + file_changes_of diff_content
     <= Z.of_nat (List.length (PyStr.split diff_content PyStr.nl)).
Proof.
  unfold added_lines_of, removed_lines_of, file_changes_of.
  repeat split; try (unfold count_lines; lia).
  apply categories_bounded.
Qed.

End FallbackCounts.

(** ** The command line ([main]) *)

Section CommandLine.
Import Main.

(** X28. [main] reviews a single pull request only for a number that is
    positive and was read from the command line; every early exit has code
    1; and after [--pr] a number 0 is not refused: it makes [main] review
    all open pull requests, as if no number had been given. *)
Theorem dispatch_reviews_positive_numbers (argv : list string) :
  (forall n : Z,
      dispatch argv = ReviewSingle n ->
      0 < n /\ exists text : string, In text argv /\ PyStr.to_int text = Some n)
  /\ (forall code : Z, dispatch argv = Exit code -> code = 1)
  /\ (forall (prog text : string) (rest : list string) (n : Z),
        PyStr.to_int text = Some n ->
        dispatch (prog :: "--pr" :: text :: rest)
        = if n =? 0 then ReviewAll
          else if n <? 0 then Exit 1 else ReviewSingle n).
Proof.
  split; [|split].
  - intros n. unfold dispatch, read_pr_number, int_or_exit.
    destruct argv as [|prog [|arg rest]]; try discriminate.
    assert (Hnum : forall text : string,
               In text (prog :: arg :: rest) ->
               match
                 match PyStr.to_int text with
                 | Some n0 => inl (Some n0)
                 | None => inr 1
                 end
               with
               | inl (Some pr_number) =>
                   if negb (pr_number =? 0)
                   then if pr_number <=? 0 then Exit 1 else ReviewSingle pr_number
                   else ReviewAll
               | inl None => ReviewAll
               | inr code => Exit code
               end = ReviewSingle n ->
               0 < n /\ exists text0 : string,
                          In text0 (prog :: arg :: rest)
                          /\ PyStr.to_int text0 = Some n).
    { intros text Hin. destruct (PyStr.to_int text) as [m|] eqn:Hm; [|discriminate].
      destruct (negb (m =? 0)); [|discriminate].
      destruct (m <=? 0) eqn:E; [discriminate|].
      intros [= <-]. split; [lia|]. exists text. auto. }
    destruct (String.eqb arg "--pr"), rest as [|number rest].
    + destruct (_ || _); [|discriminate]. apply Hnum. right; left; reflexivity.
    + apply Hnum. right; right; left; reflexivity.
    + destruct (_ || _); [|discriminate]. apply Hnum. right; left; reflexivity.
    + destruct (_ || _); [|discriminate]. apply Hnum. right; left; reflexivity.
  - intros code. unfold dispatch, read_pr_number, int_or_exit.
    destruct argv as [|prog [|arg rest]]; try discriminate.
    assert (Hexit : forall text : string,
               match
                 match PyStr.to_int text with
                 | Some n0 => inl (Some n0)
                 | None => inr 1
                 end
               with
               | inl (Some pr_number) =>
                   if negb (pr_number =? 0)
                   then if pr_number <=? 0 then Exit 1 else ReviewSingle pr_number
                   else ReviewAll
               | inl None => ReviewAll
               | inr code0 => Exit code0
               end = Exit code -> code = 1).
    { intros text. destruct (PyStr.to_int text) as [m|]; [|congruence].
      destruct (negb (m =? 0)); [|discriminate].
      destruct (m <=? 0); [congruence | discriminate]. }
    destruct (String.eqb arg "--pr"), rest as [|number rest];
      try (destruct (_ || _); [|congruence]); apply Hexit.
  - intros prog text rest n Hn. unfold dispatch, read_pr_number, int_or_exit.
    rewrite String.eqb_refl, Hn.
    destruct (n =? 0) eqn:E0; cbn [negb]; [reflexivity|].
    destruct (n <=? 0) eqn:E1, (n <? 0) eqn:E2; try reflexivity; lia.
Qed.

Lemma dispatch_reviews_positive_numbers_witness :
  0 < 12
  /\ exists text : string,
       In text ["review.py"; "--pr"; "12"] /\ PyStr.to_int text = Some 12.
Proof.
  destruct (dispatch_reviews_positive_numbers ["review.py"; "--pr"; "12"])
    as [Hsingle _].
  apply Hsingle. reflexivity.
Defined.

End CommandLine.

(** ** src/utils.py *)




(** ** More on the rate-limit wait *)

Section RateLimitWait.
Import World GitHubClient.

Variable o : oracle.

(** X30. A wait that [_handle_rate_limit] returns is a whole number of
    seconds and at least 1, and it is returned only for a 403 or a 429; a
    response with any other status gets [None] and the clock is not even
    read. *)
Theorem rate_limit_wait_is_at_least_one (r : response) (w : World.t) :
  (forall wait : Z,
      fst (_handle_rate_limit o r w) = Ok (Some wait) ->
      1 <= wait /\ (status_code r = 403 \/ status_code r = 429))
  /\ (status_code r <> 403 -> status_code r <> 429 ->
      _handle_rate_limit o r w = (Ok None, w)).
Proof.
  unfold _handle_rate_limit, time. split.
  - intros wait.
    destruct (negb _) eqn:Hst; [discriminate|].
    destruct (PyStr.to_int _); [|discriminate].
    destruct (_ && _); [discriminate|].
    destruct (headers r !! _) as [s|]; [|discriminate].
    destruct (PyStr.truthy s); [|discriminate].
    destruct (PyStr.to_int s) as [t|]; [|discriminate].
    cbv beta iota zeta.
    destruct (Qltb _ 1) eqn:Hsmall; [discriminate|].
    cbn [fst]. intros [= <-].
    apply Qltb_false in Hsmall. split.
    + unfold py_int_of_Q.
      replace (Qltb _ 0) with false.
      * change 1 with (Qfloor 1). apply Qfloor_resp_le. exact Hsmall.
      * symmetry. apply Qltb_false.
        apply Qle_trans with (y := 1%Q); [discriminate | exact Hsmall].
    + apply negb_false_iff, orb_true_iff in Hst. lia.
  - intros H403 H429.
    replace (negb _) with true; [reflexivity|].
    symmetry. apply negb_true_iff, orb_false_intro; lia.
Qed.

End RateLimitWait.

Lemma rate_limit_wait_is_at_least_one_witness :
  1 <= 60
  /\ (World.status_code rate_limited_until_160 = 403
      \/ World.status_code rate_limited_until_160 = 429).
Proof.
  destruct (rate_limit_wait_is_at_least_one
              (oracle_always (World.Returned rate_limited_until_160))
              rate_limited_until_160 World.initial) as [H _].
  apply H. vm_compute. reflexivity.
Defined.
